(** * DevExtreme filter backend: the two filter evaluators

    A shallow embedding of the filter-expression core of the Go backend:

    - [dynamictablefilter]: [evaluateCondition], [applyFilterRecursive] and
      [FilterDynamicData], the in-memory evaluator over decoded JSON records;
    - package [main]: [ParseFilterToPredicates] with its [EntityAdapter]
      interface, the helpers [convertToInt], [convertToFloat64],
      [convertToTime], and the schema-driven [GenericEntAdapter].

    Go's [interface{}] values are the closed sum [Value]; a Go result
    [(T, error)] together with a possible run-time panic is [Outcome T];
    every [fmt.Errorf] site of the program is one constructor of [Error]. *)

From Stdlib Require Import ZArith QArith Bool Ascii String DecimalString List Lia.
From stdpp Require Import base option list strings gmap.

Set Warnings "-register-all".

Local Open Scope Z_scope.
Local Open Scope string_scope.

(** ** The Go standard library, as far as the program calls it *)

(** Package [unicode], as far as package [strings] calls it on text that
    is not pure ASCII: [strings.Map(unicode.ToLower, s)] and the rune loop of
    [strings.EqualFold] over [unicode.SimpleFold].  The tables behind them
    stay abstract. *)
Class GoUnicode : Type := {
  unicode_ToLower : string -> string;
  unicode_EqualFold : string -> string -> bool
}.

(** Package [strings].  A Go string is a byte sequence.  [ToLower] and
    [EqualFold] have a byte loop for ASCII text, written out here, and hand
    text with a byte of [0x80] and more to package [unicode]; [HasPrefix],
    [Contains] and [HasSuffix] compare bytes. *)
Module strings.

(** No byte is [utf8.RuneSelf] or more. *)
Fixpoint isASCII (s : string) : bool :=
    match s with
    | EmptyString => true
    | String c s' => (nat_of_ascii c <? 128)%nat && isASCII s'
    end.

Definition lower_ascii (c : ascii) : ascii :=
  let n := nat_of_ascii c in
  if ((65 <=? n) && (n <=? 90))%nat then ascii_of_nat (n + 32) else c.

(** The ASCII arm of [ToLower]: [c += 'a' - 'A'] on the bytes [A-Z]. *)
Fixpoint lowerASCII (s : string) : string :=
    match s with
    | EmptyString => EmptyString
    | String c s' => String (lower_ascii c) (lowerASCII s')
    end.

Definition ToLower `{GoUnicode} (s : string) : string :=
  if isASCII s then lowerASCII s else unicode_ToLower s.

(** The ASCII arm of [EqualFold]: byte by byte, two bytes being equal or
    the upper- and lower-case form of one letter; then the lengths. *)
Fixpoint foldASCII (s t : string) : bool :=
    match s, t with
    | EmptyString, EmptyString => true
    | String a s', String b t' =>
        Ascii.eqb (lower_ascii a) (lower_ascii b) && foldASCII s' t'
    | _, _ => false
    end.

Definition EqualFold `{GoUnicode} (s t : string) : bool :=
  if isASCII s && isASCII t then foldASCII s t else unicode_EqualFold s t.

Definition HasPrefix (s pre : string) : bool := String.prefix pre s.

Fixpoint Contains (s substr : string) : bool :=
    HasPrefix s substr ||
    match s with
    | EmptyString => false
    | String _ s' => Contains s' substr
    end.

Definition HasSuffix (s suffix : string) : bool :=
    let n := String.length s in
    let k := String.length suffix in
    (k <=? n)%nat && String.eqb (String.substring (n - k) k s) suffix.

End strings.

(** [%v] on an [int]: decimal digits, with a minus sign when negative. *)
Definition fmt_int (i : Z) : string := NilZero.string_of_int (Z.to_int i).

(** [strconv.ParseBool]. *)
Definition strconv_ParseBool (s : string) : option bool :=
  if existsb (String.eqb s) ["1"; "t"; "T"; "TRUE"; "true"; "True"] then Some true
  else if existsb (String.eqb s) ["0"; "f"; "F"; "FALSE"; "false"; "False"] then Some false
  else None.

(** The layouts of package [time] that the program names. *)
Definition time_RFC3339 : string := "2006-01-02T15:04:05Z07:00".
Definition time_RFC3339Nano : string := "2006-01-02T15:04:05.999999999Z07:00".

(** What stays abstract.  First the carriers of [float64] and of
    [time.Time]; then their comparisons and conversions and the number and
    timestamp scanners and printers of [strconv], [fmt] and [time]. *)
Class GoTypes : Type := {
  float64 : Type;
  Time : Type
}.

Class GoLib `{GoTypes} : Type := {
  float64_eq : float64 -> float64 -> bool;      (* [a == b] *)
  float64_lt : float64 -> float64 -> bool;      (* [a < b]  *)
  float64_le : float64 -> float64 -> bool;      (* [a <= b] *)
  float64_of_int : Z -> float64;                (* [float64(i)] *)
  int_of_float64 : float64 -> Z;                (* [int(f)] *)
  Time_Equal : Time -> Time -> bool;
  Time_After : Time -> Time -> bool;
  Time_Before : Time -> Time -> bool;
  time_Parse : string -> string -> option Time; (* layout, then text *)
  strconv_ParseFloat : string -> option float64;
  fmt_Sscan_int : string -> option Z;           (* [fmt.Sscan(s, &i)] *)
  fmt_Sscan_float64 : string -> option float64; (* [fmt.Sscan(s, &f)] *)
  fmt_float64 : float64 -> string;              (* [%v] on a float64 *)
  fmt_Time : Time -> string                     (* [%v] on a time.Time *)
}.

(** ** Values, errors and outcomes *)

Section Model.
Context `{T : GoTypes} `{U : GoUnicode} `{L : !GoLib}.

(** A Go [interface{}] as the program meets it: what [encoding/json] decodes
    (nil, bool, float64, string, array), the [int] and [time.Time] that Go
    callers pass, and [VOther] for a value of any dynamic type that no type
    switch of the program names (a decoded JSON object, say), carried by its
    [%v] rendering.  The [float32], [int32] and [int64] arms of the two
    numeric converters have no constructor: neither the decoder nor a caller
    in the repository produces them. *)
Inductive Value : Type :=
| VNil
| VBool (b : bool)
| VFloat64 (f : float64)
| VInt (i : Z)
| VStr (s : string)
| VTime (t : Time)
| VArr (l : list Value)
| VOther (repr : string).

(** [fmt.Sprintf("%v", v)]. *)
Fixpoint fmt_v (v : Value) : string :=
  match v with
  | VNil => "<nil>"
  | VBool true => "true"
  | VBool false => "false"
  | VFloat64 f => fmt_float64 f
  | VInt i => fmt_int i
  | VStr s => s
  | VTime t => fmt_Time t
  | VArr l =>
      "[" ++ (fix join (l : list Value) : string :=
                match l with
                | [] => ""
                | [x] => fmt_v x
                | x :: xs => fmt_v x ++ " " ++ join xs
                end) l ++ "]"
  | VOther repr => repr
  end.

(** Which bound of a [between] failed to convert. *)
Inductive Bound : Type := Lower | Upper.

(** One constructor per [fmt.Errorf] call; a [%w] verb nests the wrapped
    error, a [%T] or [%v] verb keeps the offending value. *)
Inductive Error : Type :=
(* dynamictablefilter *)
| EvalMalformedNot (n : nat)
    (* malformed NOT filter: expected 2 elements, got %d *)
| EvalNotOperandNotArray (v : Value)
    (* NOT filter operand must be an array, got %T *)
| EvalFieldNotFound (fieldName : string)
    (* field '%s' not found in schema for dynamic table *)
| EvalMalformedGroup
    (* malformed group filter: missing condition after operator *)
| EvalLogicalOperatorNotString (v : Value)
    (* logical operator must be a string, got %T *)
| EvalGroupOperandNotArray (v : Value)
    (* group filter operand must be an array, got %T *)
| EvalInvalidLogicalOperator (op : string)
    (* invalid logical operator: '%s' *)
| EvalNotArray (v : Value)
    (* filter input is not an array, got %T *)
| EvalRecord (e : Error)
    (* error evaluating filter for a record: %w *)
(* filterutils.go *)
| NilAdapter
    (* entity adapter cannot be nil *)
| NotArray (v : Value)
    (* filter input is not an array, got %T *)
| MalformedNot (n : nat) (filterArray : list Value)
    (* malformed NOT filter: expected 2 elements, got %d. Filter: %+v *)
| NotSubCondition (e : Error) (sub : Value)
    (* error parsing NOT sub-condition: %w. Sub-filter: %+v *)
| OperatorNotString (v : Value)
    (* operator in simple condition must be a string, got %T *)
| GroupSubCondition (e : Error) (item : Value)
    (* error parsing sub-condition in group: %w. Item: %+v *)
| LogicalOperatorNotString (v : Value)
    (* logical operator in group must be a string, got %T: '%v' *)
| InvalidLogicalOperator (op : string)
    (* invalid logical operator in group: '%s' *)
| Mismatched (conditions ops : nat)
    (* mismatched number of conditions and operators in group *)
| InternalNotEnoughPredicates
    (* internal error: not enough predicates for operators *)
| FloatHasFraction (f : float64)
    (* cannot convert float %f to int as it has a fractional part *)
| StringFloatHasFraction (s : string)
    (* cannot convert string float %s to int as it has a fractional part *)
| ScanIntFailed (s : string)
    (* the error of fmt.Sscan(v, &i) *)
| CannotConvertToInt (v : Value)
    (* cannot convert %T to int *)
| TimeNotString (v : Value)
    (* time value must be a string or time.Time, got %T *)
| UnparsableDate (s : string)
    (* unable to parse date string '%s' with known layouts *)
| CannotConvertStringToFloat (s : string)
    (* cannot convert string '%s' to float64: %w *)
| NotNumeric (v : Value)
    (* expected numeric type or string representation of number, got %T *)
(* generic_ent_adapter.go *)
| AdapterFieldNotFound (field entity : string)
    (* field '%s' not found in schema for entity '%s' *)
| BetweenNeedsTwoValues (v : Value) (field : string)
    (* operator 'between' requires an array of two values, got %T *)
| BetweenInvalidBound (b : Bound) (type field : string) (e : Error)
    (* invalid lower/upper bound for 'between' on <type> field %s: %w *)
| BetweenNotSupported (type field : string)
    (* 'between' operator not supported for field type %s of field %s *)
| StringValueExpected (field : string)
    (* value for string field %s must be a string *)
| InvalidValue (type field : string) (e : Error)
    (* invalid value for <type> field %s: %w *)
| InvalidBoolString (field : string)
    (* invalid value for bool field %s: expected bool or 'true'/'false' *)
| BoolValueExpected (field : string)
    (* value for bool field %s must be a boolean or string 'true'/'false' *)
| UnsupportedFieldType (type field : string)
    (* unsupported field type '%s' in generic adapter for field '%s' *)
| UnsupportedOperator (op type field : string).
    (* unsupported operator '%s' for field type %s of field %s *)

(** A Go call returns normally with a value, returns a non-nil [error], or
    panics at run time. *)
Inductive Outcome (A : Type) : Type :=
| Ok (a : A)
| Err (e : Error)
| Panic.
Arguments Ok {A} a.
Arguments Err {A} e.
Arguments Panic {A}.

Definition bind {A B : Type} (o : Outcome A) (k : A -> Outcome B) : Outcome B :=
  match o with
  | Ok a => k a
  | Err e => Err e
  | Panic => Panic
  end.

(** The [if err != nil { return ..., fmt.Errorf("...%w", err) }] idiom. *)
Definition wrap {A : Type} (w : Error -> Error) (o : Outcome A) : Outcome A :=
  match o with
  | Err e => Err (w e)
  | other => other
  end.

(** ** Schemas and records *)

(** [schematool.SchemaFieldDefinition]. *)
Record SchemaFieldDefinition : Type := {
  Name : string;
  Type_ : string
}.

(** [dynamictablefilter.TableSchema]; [FieldMap] is keyed by lower-cased
    field name. *)
Record TableSchema : Type := {
  EntityName : string;
  Fields : list SchemaFieldDefinition;
  FieldMap : gmap string SchemaFieldDefinition
}.

(** The loop of [LoadTableSchema] and [NewGenericEntAdapter] that fills
    [FieldMap]: a later field overwrites an earlier one of the same
    lower-cased name. *)
Definition buildFieldMap (fields : list SchemaFieldDefinition)
  : gmap string SchemaFieldDefinition :=
  foldl (fun m field => <[strings.ToLower (Name field) := field]> m) ∅ fields.

Definition mkTableSchema (entity : string) (fields : list SchemaFieldDefinition)
  : TableSchema :=
  {| EntityName := entity; Fields := fields; FieldMap := buildFieldMap fields |}.

(** A decoded row, [map[string]interface{}]. *)
Definition Record_ : Type := gmap string Value.


(** ** The in-memory evaluator (package [dynamictablefilter]) *)

(** The timestamp layouts [evaluateCondition] tries, in order. *)
Definition evalLayouts : list string :=
  [time_RFC3339Nano; "2006-01-02T15:04:05Z"; "2006-01-02T15:04:05"; "2006-01-02"].

(** The [for _, layout := range layouts] loop of [evaluateCondition]: the
    first layout that parses wins; [None] when the last attempt failed. *)
Fixpoint parseFirst (layouts : list string) (s : string) : option Time :=
  match layouts with
  | [] => None
  | layout :: rest =>
      match time_Parse layout s with
      | Some t => Some t
      | None => parseFirst rest s
      end
  end.

Definition evaluateCondition (recordVal : Value) (op : string)
    (filterVal : Value) (fieldType : string) : bool :=
  let op := strings.ToLower op in
  if fieldType =? "string" then
    let sRecordVal := fmt_v recordVal in
    let sFilterVal := fmt_v filterVal in
    if op =? "=" then strings.EqualFold sRecordVal sFilterVal
    else if op =? "<>" then negb (strings.EqualFold sRecordVal sFilterVal)
    else if op =? "contains" then
      strings.Contains (strings.ToLower sRecordVal) (strings.ToLower sFilterVal)
    else if op =? "startswith" then
      strings.HasPrefix (strings.ToLower sRecordVal) (strings.ToLower sFilterVal)
    else if op =? "endswith" then
      strings.HasSuffix (strings.ToLower sRecordVal) (strings.ToLower sFilterVal)
    else if op =? "notcontains" then
      negb (strings.Contains (strings.ToLower sRecordVal) (strings.ToLower sFilterVal))
    else false
  else if fieldType =? "int" then
    match (match recordVal with
           | VFloat64 f => Some f
           | VInt rv => Some (float64_of_int rv)
           | _ => None
           end) with
    | None => false
    | Some iRecordVal =>
        match strconv_ParseFloat (fmt_v filterVal) with
        | None => false
        | Some iFilterVal =>
            let a := int_of_float64 iRecordVal in
            let b := int_of_float64 iFilterVal in
            if op =? "=" then (a =? b)%Z
            else if op =? "<>" then negb (a =? b)%Z
            else if op =? ">" then (b <? a)%Z
            else if op =? ">=" then (b <=? a)%Z
            else if op =? "<" then (a <? b)%Z
            else if op =? "<=" then (a <=? b)%Z
            else false
        end
    end
  else if fieldType =? "float64" then
    match recordVal with
    | VFloat64 fRecordVal =>
        match strconv_ParseFloat (fmt_v filterVal) with
        | None => false
        | Some fFilterVal =>
            if op =? "=" then float64_eq fRecordVal fFilterVal
            else if op =? "<>" then negb (float64_eq fRecordVal fFilterVal)
            else if op =? ">" then float64_lt fFilterVal fRecordVal
            else if op =? ">=" then float64_le fFilterVal fRecordVal
            else if op =? "<" then float64_lt fRecordVal fFilterVal
            else if op =? "<=" then float64_le fRecordVal fFilterVal
            else false
        end
    | _ => false
    end
  else if fieldType =? "bool" then
    match recordVal with
    | VBool bRecordVal =>
        match strconv_ParseBool (strings.ToLower (fmt_v filterVal)) with
        | None => false
        | Some bFilterVal =>
            if op =? "=" then Bool.eqb bRecordVal bFilterVal
            else if op =? "<>" then negb (Bool.eqb bRecordVal bFilterVal)
            else false
        end
    | _ => false
    end
  else if fieldType =? "time.Time" then
    match parseFirst evalLayouts (fmt_v recordVal) with
    | None => false
    | Some tRecordVal =>
        match parseFirst evalLayouts (fmt_v filterVal) with
        | None => false
        | Some tFilterVal =>
            if op =? "=" then Time_Equal tRecordVal tFilterVal
            else if op =? "<>" then negb (Time_Equal tRecordVal tFilterVal)
            else if op =? ">" then Time_After tRecordVal tFilterVal
            else if op =? ">=" then
              Time_After tRecordVal tFilterVal || Time_Equal tRecordVal tFilterVal
            else if op =? "<" then Time_Before tRecordVal tFilterVal
            else if op =? "<=" then
              Time_Before tRecordVal tFilterVal || Time_Equal tRecordVal tFilterVal
            else false
        end
    end
  else false.

(** The leaf arm of [applyFilterRecursive]: the operator slot is read with
    [operator, _ := filterGroup[1].(string)], so a non-string yields [""]. *)
Definition stringOrEmpty (v : Value) : string :=
  match v with
  | VStr s => s
  | _ => ""
  end.

Definition evalLeaf (record : Record_) (schema : TableSchema)
    (fieldName : string) (opv value : Value) : Outcome bool :=
  let operator := stringOrEmpty opv in
  match FieldMap schema !! strings.ToLower fieldName with
  | None => Err (EvalFieldNotFound fieldName)
  | Some fieldSchema =>
      match record !! fieldName with
      | None => Ok false
      | Some recordVal =>
          Ok (evaluateCondition recordVal operator value (Type_ fieldSchema))
      end
  end.

(** [applyFilterRecursive] by recursion on the array value it is given.  The
    Go function takes the slice; each call site casts an element first, so
    the recursion below is only ever entered on a [VArr] (see
    [applyFilterRecursive] for the function under its Go signature).

    [loop] is the [for i := 1; i < len(filterGroup); i += 2] loop, run on
    the elements from index 1 on. *)
Fixpoint applyFilterArr (record : Record_) (schema : TableSchema)
    (fg : Value) {struct fg} : Outcome bool :=
  match fg with
  | VArr filterGroup =>
      match filterGroup with
      | [] => Ok true
      | first :: rest =>
          let chain :=
            (* [filterGroup[0].([]interface{})], unchecked *)
            match first with
            | VArr _ =>
                bind (applyFilterArr record schema first) (fun currentMatch =>
                (fix loop (rest : list Value) (currentMatch : bool)
                   {struct rest} : Outcome bool :=
                   match rest with
                   | [] => Ok currentMatch
                   | opv :: rest1 =>
                       match rest1 with
                       | [] => Err EvalMalformedGroup
                       | operand :: rest2 =>
                           match opv with
                           | VStr logicalOperatorStr =>
                               let logicalOperator :=
                                 strings.ToLower logicalOperatorStr in
                               match operand with
                               | VArr _ =>
                                   bind (applyFilterArr record schema operand)
                                     (fun nextSubMatch =>
                                      if logicalOperator =? "and" then
                                        loop rest2 (currentMatch && nextSubMatch)
                                      else if logicalOperator =? "or" then
                                        loop rest2 (currentMatch || nextSubMatch)
                                      else
                                        Err (EvalInvalidLogicalOperator
                                               logicalOperatorStr))
                               | _ => Err (EvalGroupOperandNotArray operand)
                               end
                           | _ => Err (EvalLogicalOperatorNotString opv)
                           end
                       end
                   end) rest currentMatch)
            | _ => Panic
            end in
          match first with
          | VStr s =>
              if s =? "!" then
                match rest with
                | [operand] =>
                    match operand with
                    | VArr _ =>
                        bind (applyFilterArr record schema operand)
                          (fun subMatch => Ok (negb subMatch))
                    | _ => Err (EvalNotOperandNotArray operand)
                    end
                | _ => Err (EvalMalformedNot (length filterGroup))
                end
              else
                match rest with
                | [opv; value] => evalLeaf record schema s opv value
                | _ => chain
                end
          | _ => chain
          end
      end
  | _ => Panic
  end.

Definition applyFilterRecursive (record : Record_) (schema : TableSchema)
    (filterGroup : list Value) : Outcome bool :=
  applyFilterArr record schema (VArr filterGroup).

(** The record loop of [FilterDynamicData]. *)
Fixpoint filterRecords (data : list Record_) (schema : TableSchema)
    (filterArray : list Value) : Outcome (list Record_) :=
  match data with
  | [] => Ok []
  | record :: data' =>
      bind (wrap EvalRecord (applyFilterRecursive record schema filterArray))
        (fun match_ =>
         bind (filterRecords data' schema filterArray) (fun filteredResults =>
         Ok (if match_ then record :: filteredResults else filteredResults)))
  end.

Definition FilterDynamicData (data : list Record_) (schema : TableSchema)
    (filterInput : Value) : Outcome (list Record_) :=
  match filterInput with
  | VNil => Ok data
  | VArr filterArray =>
      match filterArray with
      | [] => Ok data
      | _ => filterRecords data schema filterArray
      end
  | _ => Err (EvalNotArray filterInput)
  end.

(** ** The predicate backend (package [main]) *)

(** The predicate terms of [entgo.io/ent/dialect/sql] that the program
    builds.  The program never inspects one; it only nests them. *)
Inductive Predicate : Type :=
| sql_EQ (col : string) (v : Value)
| sql_NEQ (col : string) (v : Value)
| sql_GT (col : string) (v : Value)
| sql_GTE (col : string) (v : Value)
| sql_LT (col : string) (v : Value)
| sql_LTE (col : string) (v : Value)
| sql_ContainsFold (col sub : string)
| sql_HasPrefix (col prefix : string)
| sql_HasSuffix (col suffix : string)
| sql_And (preds : list Predicate)
| sql_Or (preds : list Predicate)
| sql_Not (p : Predicate).

(** [PredicateFunc] is [*sql.Predicate]: [None] is the nil pointer. *)
Definition PredicateFunc : Type := option Predicate.

(** The [EntityAdapter] interface. *)
Record EntityAdapter : Type := {
  GetPredicateForField : string -> string -> Value -> Outcome PredicateFunc;
  GetAndPredicate : list PredicateFunc -> PredicateFunc;
  GetOrPredicate : list PredicateFunc -> PredicateFunc;
  GetNotPredicate : PredicateFunc -> PredicateFunc
}.

(** The closing loop of [ParseFilterToPredicates]: [cur] is
    [currentPredicate], [nexts] is [predicates[i+1:]]. *)
Fixpoint foldOps (a : EntityAdapter) (cur : PredicateFunc)
    (nexts : list PredicateFunc) (ops : list string) : Outcome PredicateFunc :=
  match ops with
  | [] => Ok cur
  | op :: ops' =>
      match nexts with
      | [] => Err InternalNotEnoughPredicates
      | nextPredicate :: nexts' =>
          foldOps a
            (if op =? "and" then GetAndPredicate a [cur; nextPredicate]
             else GetOrPredicate a [cur; nextPredicate])
            nexts' ops'
      end
  end.

(** What [ParseFilterToPredicates] does with the collected [predicates] and
    [ops] of a group. *)
Definition combineGroup (a : EntityAdapter) (predicates : list PredicateFunc)
    (ops : list string) : Outcome PredicateFunc :=
  match predicates with
  | [] => Ok None
  | [p] => Ok p
  | p0 :: nexts =>
      if negb (length ops =? length predicates - 1)%nat then
        Err (Mismatched (length predicates) (length ops))
      else foldOps a p0 nexts ops
  end.

Definition isLogicalToken (opCandidate : string) : bool :=
  (opCandidate =? "and") || (opCandidate =? "or") || (opCandidate =? "!").

(** [ParseFilterToPredicates]; [collect] is its
    [for i, item := range filterArray] loop, [even] telling whether
    [i%2 == 0]. *)
Fixpoint ParseFilterToPredicates (adapter : option EntityAdapter)
    (filterInput : Value) {struct filterInput} : Outcome PredicateFunc :=
  match adapter with
  | None => Err NilAdapter
  | Some a =>
  match filterInput with
  | VNil => Ok None
  | VArr filterArray =>
      match filterArray with
      | [] => Ok None
      | first :: rest =>
          let group :=
            bind
              ((fix collect (items : list Value) (even : bool)
                  (predicates : list PredicateFunc) (ops : list string)
                  {struct items}
                  : Outcome (list PredicateFunc * list string) :=
                  match items with
                  | [] => Ok (predicates, ops)
                  | item :: items' =>
                      if even then
                        bind (wrap (fun e => GroupSubCondition e item)
                                (ParseFilterToPredicates adapter item))
                          (fun p =>
                           collect items' false
                             (match p with
                              | Some _ => (predicates ++ [p])%list
                              | None => predicates
                              end) ops)
                      else
                        match item with
                        | VStr opStr =>
                            let opStrLower := strings.ToLower opStr in
                            if negb (opStrLower =? "and")
                               && negb (opStrLower =? "or") then
                              Err (InvalidLogicalOperator opStr)
                            else collect items' true predicates
                                   (ops ++ [opStrLower])%list
                        | _ => Err (LogicalOperatorNotString item)
                        end
                  end) filterArray true [] [])
              (fun po => combineGroup a (fst po) (snd po)) in
          match first with
          | VStr s =>
              if s =? "!" then
                match rest with
                | [sub] =>
                    bind (wrap (fun e => NotSubCondition e sub)
                            (ParseFilterToPredicates adapter sub))
                      (fun subPredicate =>
                       match subPredicate with
                       | None => Ok None
                       | Some _ => Ok (GetNotPredicate a subPredicate)
                       end)
                | _ => Err (MalformedNot (length filterArray) filterArray)
                end
              else
                match rest with
                | [opv; value] =>
                    if isLogicalToken (strings.ToLower s) then group
                    else
                      match opv with
                      | VStr operator => GetPredicateForField a s operator value
                      | _ => Err (OperatorNotString opv)
                      end
                | _ => group
                end
          | _ => group
          end
      end
  | _ => Err (NotArray filterInput)
  end
  end.

(** [v != float64(int(v))]. *)
Definition hasFraction (v : float64) : bool :=
  negb (float64_eq v (float64_of_int (int_of_float64 v))).

Definition convertToInt (val : Value) : Outcome Z :=
  match val with
  | VFloat64 v =>
      if hasFraction v then Err (FloatHasFraction v) else Ok (int_of_float64 v)
  | VInt v => Ok v
  | VStr v =>
      match fmt_Sscan_int v with
      | Some i => Ok i
      | None =>
          match fmt_Sscan_float64 v with
          | Some f =>
              if hasFraction f then Err (StringFloatHasFraction v)
              else Ok (int_of_float64 f)
          | None => Err (ScanIntFailed v)
          end
      end
  | _ => Err (CannotConvertToInt val)
  end.

(** The layouts [convertToTime] tries, in order. *)
Definition convertLayouts : list string :=
  [time_RFC3339; time_RFC3339Nano; "2006-01-02T15:04:05Z07:00";
   "2006-01-02T15:04:05"; "2006-01-02"].

Definition convertToTime (val : Value) : Outcome Time :=
  match val with
  | VStr strVal =>
      match parseFirst convertLayouts strVal with
      | Some t => Ok t
      | None => Err (UnparsableDate strVal)
      end
  | VTime tVal => Ok tVal
  | _ => Err (TimeNotString val)
  end.

Definition convertToFloat64 (val : Value) : Outcome float64 :=
  match val with
  | VFloat64 v => Ok v
  | VInt v => Ok (float64_of_int v)
  | VStr v =>
      match fmt_Sscan_float64 v with
      | Some f => Ok f
      | None => Err (CannotConvertStringToFloat v)
      end
  | _ => Err (NotNumeric val)
  end.

(** ** The schema-driven adapter ([generic_ent_adapter.go]) *)

(** The operator tables, [map[string]...OpHandler]: a lookup that finds a
    handler returns it, one that does not returns [None]. *)
Definition stringOpHandler : Type := string -> string -> Outcome PredicateFunc.
Definition intOpHandler : Type := string -> Z -> Outcome PredicateFunc.
Definition floatOpHandler : Type := string -> float64 -> Outcome PredicateFunc.
Definition boolOpHandler : Type := string -> bool -> Outcome PredicateFunc.
Definition timeOpHandler : Type := string -> Time -> Outcome PredicateFunc.

Definition stringOperators (op : string) : option stringOpHandler :=
  if op =? "=" then Some (fun c v => Ok (Some (sql_EQ c (VStr v))))
  else if op =? "<>" then Some (fun c v => Ok (Some (sql_NEQ c (VStr v))))
  else if op =? "contains" then Some (fun c v => Ok (Some (sql_ContainsFold c v)))
  else if op =? "notcontains" then
    Some (fun c v => Ok (Some (sql_Not (sql_ContainsFold c v))))
  else if op =? "startswith" then Some (fun c v => Ok (Some (sql_HasPrefix c v)))
  else if op =? "endswith" then Some (fun c v => Ok (Some (sql_HasSuffix c v)))
  else None.

(** The six comparison handlers shared by the int, float and time tables;
    [inj] is the Go type at which the operand reaches [sql.EQ] and friends. *)
Definition comparisonOperators {A : Type} (inj : A -> Value) (op : string)
  : option (string -> A -> Outcome PredicateFunc) :=
  if op =? "=" then Some (fun c v => Ok (Some (sql_EQ c (inj v))))
  else if op =? "<>" then Some (fun c v => Ok (Some (sql_NEQ c (inj v))))
  else if op =? ">" then Some (fun c v => Ok (Some (sql_GT c (inj v))))
  else if op =? ">=" then Some (fun c v => Ok (Some (sql_GTE c (inj v))))
  else if op =? "<" then Some (fun c v => Ok (Some (sql_LT c (inj v))))
  else if op =? "<=" then Some (fun c v => Ok (Some (sql_LTE c (inj v))))
  else None.

Definition intOperators : string -> option intOpHandler :=
  comparisonOperators VInt.
Definition floatOperators : string -> option floatOpHandler :=
  comparisonOperators VFloat64.
Definition timeOperators : string -> option timeOpHandler :=
  comparisonOperators VTime.

Definition boolOperators (op : string) : option boolOpHandler :=
  if op =? "=" then Some (fun c v => Ok (Some (sql_EQ c (VBool v))))
  else if op =? "<>" then Some (fun c v => Ok (Some (sql_NEQ c (VBool v))))
  else None.

Record GenericEntAdapter : Type := {
  entityName : string;
  tableSchema : TableSchema
}.

(** The three [between] arms share their shape: convert both bounds, then
    [sql.And(sql.GTE(col, lower), sql.LTE(col, upper))]. *)
Definition betweenPredicate {A : Type} (conv : Value -> Outcome A)
    (inj : A -> Value) (label field columnName : string) (lo hi : Value)
  : Outcome PredicateFunc :=
  bind (wrap (BetweenInvalidBound Lower label field) (conv lo)) (fun lower =>
  bind (wrap (BetweenInvalidBound Upper label field) (conv hi)) (fun upper =>
  Ok (Some (sql_And [sql_GTE columnName (inj lower);
                     sql_LTE columnName (inj upper)])))).

Definition Generic_GetPredicateForField (ga : GenericEntAdapter)
    (field op : string) (val : Value) : Outcome PredicateFunc :=
  let columnName := strings.ToLower field in
  match FieldMap (tableSchema ga) !! columnName with
  | None => Err (AdapterFieldNotFound field (entityName ga))
  | Some fieldSchema =>
      let opLower := strings.ToLower op in
      let type := Type_ fieldSchema in
      if opLower =? "between" then
        match val with
        | VArr [lo; hi] =>
            if type =? "int" then
              betweenPredicate convertToInt VInt "int" field columnName lo hi
            else if type =? "float64" then
              betweenPredicate convertToFloat64 VFloat64 "float" field
                columnName lo hi
            else if type =? "time.Time" then
              betweenPredicate convertToTime VTime "time" field columnName lo hi
            else Err (BetweenNotSupported type field)
        | _ => Err (BetweenNeedsTwoValues val field)
        end
      else
        let unsupported := Err (UnsupportedOperator op type field) in
        if (type =? "string") || (type =? "text") then
          match val with
          | VStr strVal =>
              match stringOperators opLower with
              | Some handler => handler columnName strVal
              | None => unsupported
              end
          | _ => Err (StringValueExpected field)
          end
        else if type =? "int" then
          bind (wrap (InvalidValue "int" field) (convertToInt val)) (fun intVal =>
          match intOperators opLower with
          | Some handler => handler columnName intVal
          | None => unsupported
          end)
        else if type =? "float64" then
          bind (wrap (InvalidValue "float" field) (convertToFloat64 val))
            (fun floatVal =>
             match floatOperators opLower with
             | Some handler => handler columnName floatVal
             | None => unsupported
             end)
        else if type =? "bool" then
          bind (match val with
                | VBool boolVal => Ok boolVal
                | VStr strVal =>
                    match strconv_ParseBool (strings.ToLower strVal) with
                    | Some parsed => Ok parsed
                    | None => Err (InvalidBoolString field)
                    end
                | _ => Err (BoolValueExpected field)
                end)
            (fun boolVal =>
             match boolOperators opLower with
             | Some handler => handler columnName boolVal
             | None => unsupported
             end)
        else if type =? "time.Time" then
          bind (wrap (InvalidValue "time" field) (convertToTime val)) (fun timeVal =>
          match timeOperators opLower with
          | Some handler => handler columnName timeVal
          | None => unsupported
          end)
        else Err (UnsupportedFieldType type field)
  end.

(** The [validPreds] loop of [GetAndPredicate] and [GetOrPredicate]. *)
Definition validPreds (predicates : list PredicateFunc) : list Predicate :=
  omap id predicates.

Definition Generic_GetAndPredicate (predicates : list PredicateFunc)
  : PredicateFunc :=
  match validPreds predicates with
  | [] => None
  | [p] => Some p
  | ps => Some (sql_And ps)
  end.

Definition Generic_GetOrPredicate (predicates : list PredicateFunc)
  : PredicateFunc :=
  match validPreds predicates with
  | [] => None
  | [p] => Some p
  | ps => Some (sql_Or ps)
  end.

Definition Generic_GetNotPredicate (p : PredicateFunc) : PredicateFunc :=
  match p with
  | None => None
  | Some q => Some (sql_Not q)
  end.

(** [*GenericEntAdapter] as an [EntityAdapter]. *)
Definition genericAdapter (ga : GenericEntAdapter) : EntityAdapter :=
  {| GetPredicateForField := Generic_GetPredicateForField ga;
     GetAndPredicate := Generic_GetAndPredicate;
     GetOrPredicate := Generic_GetOrPredicate;
     GetNotPredicate := Generic_GetNotPredicate |}.

(** [filterHandler] attaches the parsed predicate to the query only when it
    is non-nil: with a nil predicate every row is returned.  [accepts] is
    the query engine's verdict on one row. *)
Definition queryAll (accepts : Predicate -> Record_ -> bool)
    (finalPredicate : PredicateFunc) (rows : list Record_) : list Record_ :=
  match finalPredicate with
  | None => rows
  | Some p => List.filter (accepts p) rows
  end.

(** ** The two loops under their own names

    The bodies of the two anonymous loops, as top-level functions over the
    public entry points; [applyFilterRecursive_eq] and
    [ParseFilterToPredicates_eq] below show that the recursive definitions
    run exactly these. *)

Fixpoint groupLoop (record : Record_) (schema : TableSchema)
    (rest : list Value) (currentMatch : bool) {struct rest} : Outcome bool :=
  match rest with
  | [] => Ok currentMatch
  | opv :: rest1 =>
      match rest1 with
      | [] => Err EvalMalformedGroup
      | operand :: rest2 =>
          match opv with
          | VStr logicalOperatorStr =>
              let logicalOperator := strings.ToLower logicalOperatorStr in
              match operand with
              | VArr subFilterGroup =>
                  bind (applyFilterRecursive record schema subFilterGroup)
                    (fun nextSubMatch =>
                     if logicalOperator =? "and" then
                       groupLoop record schema rest2 (currentMatch && nextSubMatch)
                     else if logicalOperator =? "or" then
                       groupLoop record schema rest2 (currentMatch || nextSubMatch)
                     else Err (EvalInvalidLogicalOperator logicalOperatorStr))
              | _ => Err (EvalGroupOperandNotArray operand)
              end
          | _ => Err (EvalLogicalOperatorNotString opv)
          end
      end
  end.

Fixpoint collectGroup (adapter : option EntityAdapter) (items : list Value)
    (even : bool) (predicates : list PredicateFunc) (ops : list string)
    {struct items} : Outcome (list PredicateFunc * list string) :=
  match items with
  | [] => Ok (predicates, ops)
  | item :: items' =>
      if even then
        bind (wrap (fun e => GroupSubCondition e item)
                (ParseFilterToPredicates adapter item))
          (fun p =>
           collectGroup adapter items' false
             (match p with
              | Some _ => (predicates ++ [p])%list
              | None => predicates
              end) ops)
      else
        match item with
        | VStr opStr =>
            let opStrLower := strings.ToLower opStr in
            if negb (opStrLower =? "and") && negb (opStrLower =? "or") then
              Err (InvalidLogicalOperator opStr)
            else collectGroup adapter items' true predicates
                   (ops ++ [opStrLower])%list
        | _ => Err (LogicalOperatorNotString item)
        end
  end.

(** The group arm of [ParseFilterToPredicates]. *)
Definition parseGroup (a : EntityAdapter) (filterArray : list Value)
  : Outcome PredicateFunc :=
  bind (collectGroup (Some a) filterArray true [] [])
    (fun po => combineGroup a (fst po) (snd po)).

(** ** Sub-values of a filter expression *)



(** The leaf condition [[field, operator, value]] as a value. *)
Definition leaf (field op : string) (value : Value) : Value :=
  VArr [VStr field; VStr op; value].

(** ** What is assumed of a query engine *)

(** The engine reads [sql.And], [sql.Or] and [sql.Not] as the Boolean
    connectives. *)
Definition BooleanEngine (accepts : Predicate -> Record_ -> bool) : Prop :=
  (forall ps row,
     accepts (sql_And ps) row = forallb (fun p => accepts p row) ps) /\
  (forall ps row,
     accepts (sql_Or ps) row = existsb (fun p => accepts p row) ps) /\
  (forall p row, accepts (sql_Not p) row = negb (accepts p row)).



(** ** Operators and operands of a declared type *)

(** Whether the adapter's operator table for the declared type has the
    (lower-cased) operator. *)
Definition operatorDefined (type op : string) : bool :=
  if (type =? "string") || (type =? "text") then
    match stringOperators op with Some _ => true | None => false end
  else if type =? "int" then
    match intOperators op with Some _ => true | None => false end
  else if type =? "float64" then
    match floatOperators op with Some _ => true | None => false end
  else if type =? "bool" then
    match boolOperators op with Some _ => true | None => false end
  else if type =? "time.Time" then
    match timeOperators op with Some _ => true | None => false end
  else false.

(** Whether [Generic_GetPredicateForField] can bring the operand to the
    declared type, which it does before it looks the operator up.  No
    operand converts to a type the adapter does not know. *)
Definition operandConverts (type : string) (val : Value) : Prop :=
  if (type =? "string") || (type =? "text") then exists s, val = VStr s
  else if type =? "int" then exists i, convertToInt val = Ok i
  else if type =? "float64" then exists f, convertToFloat64 val = Ok f
  else if type =? "bool" then
    (exists b, val = VBool b) \/
    (exists s b, val = VStr s /\ strconv_ParseBool (strings.ToLower s) = Some b)
  else if type =? "time.Time" then exists t, convertToTime val = Ok t
  else False.

(** ** A reference reading of predicates

    The query engine is outside the repository.  [rowAccepts] reads a
    predicate on a row the plain way: an atomic predicate on a column is
    the comparison of that operator, at the column's declared type, between
    the row's value and the operand, false on a row without the column,
    and [sql.And], [sql.Or], [sql.Not] are the Boolean connectives. *)

Definition atomOn (schema : TableSchema) (row : Record_) (col op : string)
    (v : Value) : bool :=
  match FieldMap schema !! col, row !! col with
  | Some fieldSchema, Some rowVal =>
      evaluateCondition rowVal op v (Type_ fieldSchema)
  | _, _ => false
  end.

Fixpoint rowAccepts (schema : TableSchema) (p : Predicate) (row : Record_)
  : bool :=
  match p with
  | sql_EQ c v => atomOn schema row c "=" v
  | sql_NEQ c v => atomOn schema row c "<>" v
  | sql_GT c v => atomOn schema row c ">" v
  | sql_GTE c v => atomOn schema row c ">=" v
  | sql_LT c v => atomOn schema row c "<" v
  | sql_LTE c v => atomOn schema row c "<=" v
  | sql_ContainsFold c sub => atomOn schema row c "contains" (VStr sub)
  | sql_HasPrefix c pre => atomOn schema row c "startswith" (VStr pre)
  | sql_HasSuffix c suf => atomOn schema row c "endswith" (VStr suf)
  | sql_And ps => forallb (fun q => rowAccepts schema q row) ps
  | sql_Or ps => existsb (fun q => rowAccepts schema q row) ps
  | sql_Not q => negb (rowAccepts schema q row)
  end.

(** ** The expressions on which the two backends are compared *)









(** ** The adapter registry ([filterutils.go]) *)

(** [registeredAdapters] is a [map[string]EntityAdapter] keyed by
    lower-cased entity name; an interface value may be nil. *)
Definition RegisterAdapter
    (registeredAdapters : gmap string (option EntityAdapter))
    (entityName : string) (adapter : option EntityAdapter)
  : gmap string (option EntityAdapter) :=
  <[strings.ToLower entityName := adapter]> registeredAdapters.

(** The error of [GetAdapter]: no adapter registered for entity type: %s. *)
Inductive RegistryError : Type :=
| NoAdapterRegistered (entityName : string).

Definition GetAdapter (registeredAdapters : gmap string (option EntityAdapter))
    (entityName : string)
  : option EntityAdapter + RegistryError :=
  match registeredAdapters !! strings.ToLower entityName with
  | Some adapter => inl adapter
  | None => inr (NoAdapterRegistered entityName)
  end.

(** ** Reading results *)

(** Whether the record passes the filter: the test [if match] of
    [FilterDynamicData], on a record whose evaluation succeeded. *)
Definition matchesRecord (schema : TableSchema) (filterArray : list Value)
    (record : Record_) : bool :=
  match applyFilterRecursive record schema filterArray with
  | Ok true => true
  | _ => false
  end.

(** The value a call returned, forgetting which error it failed with. *)
Definition okPart {A : Type} (o : Outcome A) : option A :=
  match o with
  | Ok a => Some a
  | _ => None
  end.

(** The column names a predicate mentions. *)
Fixpoint columns (p : Predicate) : list string :=
  match p with
  | sql_EQ c _ | sql_NEQ c _ | sql_GT c _ | sql_GTE c _ | sql_LT c _
  | sql_LTE c _ | sql_ContainsFold c _ | sql_HasPrefix c _
  | sql_HasSuffix c _ => [c]
  | sql_And ps | sql_Or ps => flat_map columns ps
  | sql_Not q => columns q
  end.

(** How a call ended, forgetting the value it returned. *)
Definition ending {A : Type} (o : Outcome A) : Outcome unit :=
  match o with
  | Ok _ => Ok tt
  | Err e => Err e
  | Panic => Panic
  end.

End Model.

Arguments Ok {T A} a.
Arguments Err {T A} e.
Arguments Panic {T A}.

(** ** A runtime instance for running the definitions

    Numbers are the finite decimals, kept as fractions in lowest terms and
    written in decimal with an optional sign and an optional fractional
    part, printed to seventeen places; [int(f)] truncates toward zero.  Timestamps are
    calendar dates in the date-only layout, ordered by year, month and day.
    The examples hold ASCII text only; text with other bytes is left as it
    is by this instance.  The general theorems below hold for every
    [GoLib]; this instance serves the concrete examples. *)
Module DecimalLib.

Definition isDigit (c : ascii) : bool :=
  (48 <=? nat_of_ascii c)%nat && (nat_of_ascii c <=? 57)%nat.

Definition parseDigits (s : string) : option Z :=
  let cs := list_ascii_of_string s in
  if forallb isDigit cs && negb (String.length s =? 0)%nat then
    Some (fold_left (fun acc c => acc * 10 + Z.of_nat (nat_of_ascii c - 48))%Z cs 0%Z)
  else None.

Definition parseInt (s : string) : option Z :=
  match s with
  | String c s' =>
      if Ascii.eqb c "-" then Z.opp <$> parseDigits s' else parseDigits s
  | EmptyString => None
  end.

(** The value of a string of digits, the empty one counting as zero. *)
Definition digitsValue (s : string) : Z :=
  fold_left (fun acc c => acc * 10 + Z.of_nat (nat_of_ascii c - 48))%Z
    (list_ascii_of_string s) 0%Z.

Definition allDigits (s : string) : bool :=
  forallb isDigit (list_ascii_of_string s).

(** The text before the first point, and the text after it if there is
    one. *)
Fixpoint splitPoint (s : string) : string * option string :=
  match s with
  | EmptyString => (EmptyString, None)
  | String c s' =>
      if Ascii.eqb c "." then (EmptyString, Some s')
      else let (whole, fraction) := splitPoint s' in (String c whole, fraction)
  end.

(** A decimal numeral without sign: digits, with or without a point among
    them, and at least one digit. *)
Definition parseUnsigned (s : string) : option Q :=
  let (whole, point) := splitPoint s in
  let fraction := default EmptyString point in
  if allDigits whole && allDigits fraction
     && negb (String.length whole + String.length fraction =? 0)%nat then
    let scale := (10 ^ Z.of_nat (String.length fraction))%Z in
    Some (Qred (Qmake (digitsValue whole * scale + digitsValue fraction)
                  (Z.to_pos scale)))
  else None.

Definition signed {A : Type} (parse : string -> option A) (opp : A -> A)
    (s : string) : option A :=
  match s with
  | String c s' =>
      if Ascii.eqb c "-" then opp <$> parse s'
      else if Ascii.eqb c "+" then parse s'
      else parse s
  | EmptyString => None
  end.

(** [strconv.ParseFloat] reads the whole text. *)
Definition parseDecimal (s : string) : option Q :=
  signed parseUnsigned Qopp s.

(** [fmt.Sscan] skips leading blanks, reads the longest numeral the text
    starts with, and leaves what follows unread. *)
Fixpoint skipBlanks (s : string) : string :=
  match s with
  | String c s' => if Ascii.eqb c " " then skipBlanks s' else s
  | EmptyString => EmptyString
  end.

Fixpoint spanDigits (s : string) : string * string :=
  match s with
  | String c s' =>
      if isDigit c then let (d, r) := spanDigits s' in (String c d, r)
      else (EmptyString, s)
  | EmptyString => (EmptyString, EmptyString)
  end.

Definition scanInt (s : string) : option Z :=
  signed (fun t => parseDigits (fst (spanDigits t))) Z.opp (skipBlanks s).

Definition scanDecimal (s : string) : option Q :=
  signed (fun t =>
            let (whole, r) := spanDigits t in
            match r with
            | String c r' =>
                if Ascii.eqb c "." then
                  parseUnsigned (whole ++ "." ++ fst (spanDigits r'))
                else parseUnsigned whole
            | EmptyString => parseUnsigned whole
            end)
    Qopp (skipBlanks s).

(** The digits after the point of [r / den], for [0 <= r < den]. *)
Fixpoint fractionDigits (fuel : nat) (r den : Z) : string :=
  match fuel with
  | O => EmptyString
  | S fuel' =>
      if (r =? 0)%Z then EmptyString
      else String (ascii_of_nat (48 + Z.to_nat (r * 10 / den)))
             (fractionDigits fuel' ((r * 10) mod den) den)
  end.

Definition printDecimal (q : Q) : string :=
  let q := Qred q in
  let den := Zpos (Qden q) in
  let a := Z.abs (Qnum q) in
  ((if (Qnum q <? 0)%Z then "-" else "") ++ fmt_int (a / den)
   ++ (if (a mod den =? 0)%Z then ""
       else "." ++ fractionDigits 17 (a mod den) den)).

Definition parseDateOnly (s : string) : option Z :=
  if (String.length s =? 10)%nat && (substring 4 1 s =? "-")
     && (substring 7 1 s =? "-") then
    y ← parseInt (substring 0 4 s);
    m ← parseInt (substring 5 2 s);
    d ← parseInt (substring 8 2 s);
    if (1 <=? m)%Z && (m <=? 12)%Z && (1 <=? d)%Z && (d <=? 31)%Z
    then Some (y * 10000 + m * 100 + d)%Z else None
  else None.

#[export] Instance types : GoTypes := {| float64 := Q; Time := Z |}.

#[export] Instance unicode : GoUnicode := {|
  unicode_ToLower := fun s => s;
  unicode_EqualFold := String.eqb
|}.

#[export] Instance lib : GoLib := {|
  float64_eq := Qeq_bool;
  float64_lt := fun a b => negb (Qle_bool b a);
  float64_le := Qle_bool;
  float64_of_int := inject_Z;
  int_of_float64 := fun f => Z.quot (Qnum f) (Zpos (Qden f));
  Time_Equal := Z.eqb;
  Time_After := fun a b => Z.ltb b a;
  Time_Before := Z.ltb;
  time_Parse := fun layout s =>
    if layout =? "2006-01-02" then parseDateOnly s else None;
  strconv_ParseFloat := parseDecimal;
  fmt_Sscan_int := scanInt;
  fmt_Sscan_float64 := scanDecimal;
  fmt_float64 := printDecimal;
  fmt_Time := fmt_int
|}.

End DecimalLib.


(** ** Sample data *)
Module Sample.
Import DecimalLib.

Definition schema : TableSchema :=
  mkTableSchema "transaction"
    [ {| Name := "amount"; Type_ := "float64" |};
      {| Name := "name"; Type_ := "string" |};
      {| Name := "notes"; Type_ := "text" |};
      {| Name := "qty"; Type_ := "int" |};
      {| Name := "date"; Type_ := "time.Time" |} ].

Definition adapter : GenericEntAdapter :=
  {| entityName := "transaction"; tableSchema := schema |}.

Definition row (amount : Z) (name : string) : Record_ :=
  <["amount" := VFloat64 (inject_Z amount)]> (<["name" := VStr name]> ∅).

Definition rows : list Record_ := [row 100 "Trans 1"; row 200 "Trans 0"].

(** [[["name","contains","Trans 0"],"or",["name","contains","Trans 1"]],
      "and",["amount","=",100]]], the end-to-end expression. *)
Definition endToEnd : list Value :=
  [ VArr [ leaf "name" "contains" (VStr "Trans 0"); VStr "or";
           leaf "name" "contains" (VStr "Trans 1") ];
    VStr "and";
    leaf "amount" "=" (VInt 100) ].

(** [[["!",["name","notcontains","Trans 1"]],"and",["amount",">=",100],
      "or",["name","=","trans 0"]]], the number being a [float64] as the
    JSON decoder yields it. *)
Definition plain : Value :=
  VArr [ VArr [VStr "!"; leaf "name" "notcontains" (VStr "Trans 1")];
         VStr "and";
         leaf "amount" ">=" (VFloat64 (inject_Z 100));
         VStr "OR";
         leaf "name" "=" (VStr "trans 0") ].


(** [[["amount","=",100], "and"]]. *)
Definition dangling : Value := VArr [leaf "amount" "=" (VInt 100); VStr "and"].

Definition amountIs100 : Predicate := sql_EQ "amount" (VFloat64 (inject_Z 100)).

(** The number 2.5. *)
Definition twoAndAHalf : @float64 types := (5 # 2)%Q.

End Sample.

(** * Facts *)

Section Facts.
Context `{T : GoTypes} `{U : GoUnicode} `{L : !GoLib}.

(** Case analysis on every [match] and [if] the goal is stuck on. *)
Ltac case_matches :=
  repeat match goal with
         | |- context [match ?x with _ => _ end] => destruct x
         end.

(** The body of [evaluateCondition] for a literal operator [o]: split on the
    declared type, then on whatever the chosen arm inspects. *)
Ltac evaluateCondition_cases o fieldType :=
  unfold evaluateCondition; change (strings.ToLower o) with o; cbv zeta;
  repeat match goal with
         | |- context [fieldType =? ?t] => destruct (fieldType =? t)
         end;
  cbn -[fmt_v parseFirst]; case_matches; reflexivity.

Lemma list_pair_ind {A : Type} (P : list A -> Prop) :
  P [] -> (forall x, P [x]) -> (forall x y l, P l -> P (x :: y :: l)) ->
  forall l, P l.
Proof.
  intros H0 H1 H2.
  assert (H : forall l, P l /\ forall x, P (x :: l)).
  { induction l as [|y l [IHa IHb]]; split; auto. }
  intro l. apply H.
Qed.

Lemma bind_ok {A B : Type} (o : Outcome A) (k : A -> Outcome B) (b : B) :
  bind o k = Ok b -> exists a, o = Ok a /\ k a = Ok b.
Proof. destruct o; simpl; intros; eauto; discriminate. Qed.


(** The chain arm of [applyFilterRecursive] runs [groupLoop]. *)
Lemma applyFilterRecursive_group (record : Record_) (schema : TableSchema)
    (first : list Value) (rest : list Value) :
  applyFilterRecursive record schema (VArr first :: rest) =
  bind (applyFilterRecursive record schema first) (groupLoop record schema rest).
Proof.
  unfold applyFilterRecursive.
  remember (VArr first) as f0 eqn:Ef0.
  simpl. subst f0. cbv beta iota zeta.
  destruct (applyFilterArr record schema (VArr first)) as [cm| |];
    cbn [bind]; try reflexivity.
  revert cm.
  induction rest as [|opv|opv operand rest IH] using list_pair_ind; intro cm.
  - reflexivity.
  - reflexivity.
  - cbn -[applyFilterArr String.eqb].
    destruct opv; try reflexivity.
    destruct operand; try reflexivity.
    unfold applyFilterRecursive.
    destruct (applyFilterArr record schema (VArr l)); cbn [bind]; try reflexivity.
    repeat (case (_ =? _)); try reflexivity; apply IH.
Qed.

(** [applyFilterRecursive], branch by branch as the Go function reads. *)
Lemma applyFilterRecursive_eq (record : Record_) (schema : TableSchema)
    (filterGroup : list Value) :
  applyFilterRecursive record schema filterGroup =
  match filterGroup with
  | [] => Ok true
  | first :: rest =>
      match first with
      | VStr s =>
          if s =? "!" then
            match rest with
            | [operand] =>
                match operand with
                | VArr subFilterGroup =>
                    bind (applyFilterRecursive record schema subFilterGroup)
                      (fun subMatch => Ok (negb subMatch))
                | _ => Err (EvalNotOperandNotArray operand)
                end
            | _ => Err (EvalMalformedNot (length filterGroup))
            end
          else
            match rest with
            | [opv; value] => evalLeaf record schema s opv value
            | _ => Panic
            end
      | VArr sub =>
          bind (applyFilterRecursive record schema sub)
            (groupLoop record schema rest)
      | _ => Panic
      end
  end.
Proof.
  destruct filterGroup as [|first rest]; [reflexivity|].
  destruct first; try reflexivity.
  - unfold applyFilterRecursive. cbn -[String.eqb].
    destruct (s =? "!").
    + destruct rest as [|operand [|? ?]]; try reflexivity.
      destruct operand; reflexivity.
    + destruct rest as [|? [|? [|? ?]]]; reflexivity.
  - apply applyFilterRecursive_group.
Qed.

(** The group arm of [ParseFilterToPredicates] runs [collectGroup], and the
    whole function reads branch by branch as follows. *)
Lemma ParseFilterToPredicates_eq (a : EntityAdapter) (filterInput : Value) :
  ParseFilterToPredicates (Some a) filterInput =
  match filterInput with
  | VNil => Ok None
  | VArr filterArray =>
      match filterArray with
      | [] => Ok None
      | first :: rest =>
          match first with
          | VStr s =>
              if s =? "!" then
                match rest with
                | [sub] =>
                    bind (wrap (fun e => NotSubCondition e sub)
                            (ParseFilterToPredicates (Some a) sub))
                      (fun subPredicate =>
                       match subPredicate with
                       | None => Ok None
                       | Some _ => Ok (GetNotPredicate a subPredicate)
                       end)
                | _ => Err (MalformedNot (length filterArray) filterArray)
                end
              else
                match rest with
                | [opv; value] =>
                    if isLogicalToken (strings.ToLower s) then
                      parseGroup a filterArray
                    else
                      match opv with
                      | VStr operator => GetPredicateForField a s operator value
                      | _ => Err (OperatorNotString opv)
                      end
                | _ => parseGroup a filterArray
                end
          | _ => parseGroup a filterArray
          end
      end
  | _ => Err (NotArray filterInput)
  end.
Proof.
  destruct filterInput as [| | | | | |l|]; try reflexivity.
  destruct l as [|first rest]; [reflexivity|].
  remember (first :: rest) as fa eqn:Efa.
  simpl. subst fa. cbv beta match zeta.
  match goal with
  | |- context [?F rest false _ []] =>
      assert (HF : forall items even p o,
                 F items even p o = collectGroup (Some a) items even p o)
  end.
  { induction items as [|item items IH]; intros even p o; [reflexivity|].
    cbn -[ParseFilterToPredicates String.eqb].
    destruct even.
    - destruct (ParseFilterToPredicates (Some a) item) as [[q|]| |];
        cbn [wrap bind]; try reflexivity; apply IH.
    - destruct item; try reflexivity.
      destruct (negb _ && negb _); [reflexivity | apply IH]. }
  unfold parseGroup. cbn [collectGroup].
  destruct (ParseFilterToPredicates (Some a) first) as [[q|]| |];
    cbn [wrap bind]; rewrite ?HF; reflexivity.
Qed.

(** ** The empty filter *)

(** C8. For every schema and record, the empty array evaluates to [true] in
    memory, [FilterDynamicData] returns its input rows unchanged, and the
    predicate backend returns no predicate and no error; the query then
    keeps every row. *)
Theorem empty_filter_matches_everything (record : Record_)
    (schema : TableSchema) (data : list Record_) (a : EntityAdapter)
    (accepts : Predicate -> Record_ -> bool) :
  applyFilterRecursive record schema [] = Ok true /\
  FilterDynamicData data schema (VArr []) = Ok data /\
  ParseFilterToPredicates (Some a) (VArr []) = Ok None /\
  queryAll accepts None data = data.
Proof. repeat split. Qed.

(** ** A record without the referenced field *)

Lemma evalLeaf_missing (record : Record_) (schema : TableSchema)
    (fieldName : string) (opv value : Value) (fieldSchema : SchemaFieldDefinition) :
  FieldMap schema !! strings.ToLower fieldName = Some fieldSchema ->
  record !! fieldName = None ->
  evalLeaf record schema fieldName opv value = Ok false.
Proof. intros Hs Hr. unfold evalLeaf. rewrite Hs, Hr. reflexivity. Qed.

Lemma eqb_bang_false (s : string) : s <> "!" -> (s =? "!") = false.
Proof. intro H. apply String.eqb_neq. exact H. Qed.

(** C9. A leaf on a schema field that the record does not carry evaluates to
    [false] without an error, whatever its operator and value; an
    enclosing chain goes on to its next operand, and [FilterDynamicData]
    goes on to the remaining records, leaving this one out. *)
Theorem missing_field_is_non_match (record : Record_) (schema : TableSchema)
    (fieldName : string) (opv value : Value)
    (fieldSchema : SchemaFieldDefinition) :
  fieldName <> "!" ->
  FieldMap schema !! strings.ToLower fieldName = Some fieldSchema ->
  record !! fieldName = None ->
  applyFilterRecursive record schema [VStr fieldName; opv; value] = Ok false /\
  (forall other : list Value,
     applyFilterRecursive record schema
       [VArr [VStr fieldName; opv; value]; VStr "or"; VArr other]
     = applyFilterRecursive record schema other) /\
  (forall data : list Record_,
     FilterDynamicData (record :: data) schema (VArr [VStr fieldName; opv; value])
     = FilterDynamicData data schema (VArr [VStr fieldName; opv; value])).
Proof.
  intros Hbang Hs Hr.
  assert (Hleaf : applyFilterRecursive record schema [VStr fieldName; opv; value]
                  = Ok false).
  { rewrite applyFilterRecursive_eq, (eqb_bang_false _ Hbang).
    eapply evalLeaf_missing; eauto. }
  split; [exact Hleaf|split].
  - intro other. rewrite applyFilterRecursive_eq, Hleaf.
    cbn -[applyFilterRecursive].
    destruct (applyFilterRecursive record schema other) as [[|]| |]; reflexivity.
  - intro data. cbn -[applyFilterRecursive]. rewrite Hleaf. cbn [wrap bind].
    destruct (filterRecords data schema _); reflexivity.
Qed.

(** ** Chains combine left to right *)

(** C7. In memory, the chain [[A, "or", B, "and", C]] is
    [(A or B) and C]: the three operands are evaluated in order, the first
    failure is returned, and otherwise the results combine left to right.
    The predicate builder closes a group of three predicates the same way,
    [And(Or(pa, pb), pc)], and so parses the chain whenever its three
    operands parse to predicates. *)
Theorem chain_is_left_associative (record : Record_) (schema : TableSchema)
    (a : EntityAdapter) (A B C : list Value) :
  applyFilterRecursive record schema
    [VArr A; VStr "or"; VArr B; VStr "and"; VArr C]
  = bind (applyFilterRecursive record schema A) (fun ra =>
    bind (applyFilterRecursive record schema B) (fun rb =>
    bind (applyFilterRecursive record schema C) (fun rc =>
    Ok ((ra || rb) && rc))))
  /\
  (forall pa pb pc : PredicateFunc,
     combineGroup a [pa; pb; pc] ["or"; "and"]
     = Ok (GetAndPredicate a [GetOrPredicate a [pa; pb]; pc]))
  /\
  (forall pa pb pc : Predicate,
     ParseFilterToPredicates (Some a) (VArr A) = Ok (Some pa) ->
     ParseFilterToPredicates (Some a) (VArr B) = Ok (Some pb) ->
     ParseFilterToPredicates (Some a) (VArr C) = Ok (Some pc) ->
     ParseFilterToPredicates (Some a)
       (VArr [VArr A; VStr "or"; VArr B; VStr "and"; VArr C])
     = Ok (GetAndPredicate a
             [GetOrPredicate a [Some pa; Some pb]; Some pc])).
Proof.
  split; [|split].
  - rewrite applyFilterRecursive_eq. cbn -[applyFilterRecursive].
    destruct (applyFilterRecursive record schema A) as [ra| |];
      cbn -[applyFilterRecursive]; try reflexivity.
    all: destruct (applyFilterRecursive record schema B) as [rb| |];
      cbn -[applyFilterRecursive]; try reflexivity.
    all: destruct (applyFilterRecursive record schema C) as [rc| |];
      reflexivity.
  - reflexivity.
  - intros pa pb pc HA HB HC.
    rewrite ParseFilterToPredicates_eq. unfold parseGroup.
    cbn -[ParseFilterToPredicates]. rewrite HA. cbn -[ParseFilterToPredicates].
    rewrite HB. cbn -[ParseFilterToPredicates]. rewrite HC. reflexivity.
Qed.

(** ** Nil predicates in the predicate backend *)

Lemma validPreds_all_nil (ps : list PredicateFunc) :
  Forall (fun p => p = None) ps -> validPreds ps = [].
Proof.
  induction 1 as [|p ps Hp _ IH]; [reflexivity|].
  subst p. exact IH.
Qed.

Lemma validPreds_single (pre post : list PredicateFunc) (p : Predicate) :
  Forall (fun q => q = None) pre -> Forall (fun q => q = None) post ->
  validPreds (pre ++ Some p :: post)%list = [p].
Proof.
  intros Hpre Hpost. induction Hpre as [|q pre Hq _ IH].
  - change (validPreds ([] ++ Some p :: post)%list) with (p :: validPreds post).
    rewrite (validPreds_all_nil post Hpost). reflexivity.
  - subst q. exact IH.
Qed.

(** [collectGroup] only ever appends non-nil predicates. *)
Lemma collectGroup_non_nil (a : EntityAdapter) (items : list Value) :
  forall (even : bool) (preds : list PredicateFunc) (ops : list string)
         (preds' : list PredicateFunc) (ops' : list string),
    collectGroup (Some a) items even preds ops = Ok (preds', ops') ->
    Forall (fun p => p <> None) preds -> Forall (fun p => p <> None) preds'.
Proof.
  induction items as [|item items IH]; intros even preds ops preds' ops' H Hp.
  - cbn in H. congruence.
  - cbn -[ParseFilterToPredicates String.eqb] in H. destruct even.
    + apply bind_ok in H as (r & _ & H).
      eapply IH; [exact H|].
      destruct r; [|exact Hp].
      apply Forall_app; split; [exact Hp|]. repeat constructor. discriminate.
    + destruct item; try discriminate.
      destruct (negb _ && negb _); [discriminate|]. eauto.
Qed.

(** C10, as far as it holds.  [["!", []]] parses to no predicate and no
    error, as does the negation of anything that parses to no predicate; a
    group skips an operand that parses to no predicate, keeps one that
    parses to a predicate, and so collects non-nil predicates only;
    [GetAndPredicate] and [GetOrPredicate] send all-nil inputs to nil and a
    single non-nil input among nils to itself.  [GetNotPredicate] sends nil
    to nil and a predicate [p] to [sql.Not(p)]. *)
Theorem nil_predicates_are_dropped (a : EntityAdapter) :
  ParseFilterToPredicates (Some a) (VArr [VStr "!"; VArr []]) = Ok None /\
  (forall sub : Value,
     ParseFilterToPredicates (Some a) sub = Ok None ->
     ParseFilterToPredicates (Some a) (VArr [VStr "!"; sub]) = Ok None) /\
  (forall item items preds ops,
     ParseFilterToPredicates (Some a) item = Ok None ->
     collectGroup (Some a) (item :: items) true preds ops
     = collectGroup (Some a) items false preds ops) /\
  (forall item items preds ops p,
     ParseFilterToPredicates (Some a) item = Ok (Some p) ->
     collectGroup (Some a) (item :: items) true preds ops
     = collectGroup (Some a) items false (preds ++ [Some p])%list ops) /\
  (forall items preds ops,
     collectGroup (Some a) items true [] [] = Ok (preds, ops) ->
     Forall (fun p => p <> None) preds) /\
  (forall ps : list PredicateFunc,
     Forall (fun p => p = None) ps ->
     Generic_GetAndPredicate ps = None /\ Generic_GetOrPredicate ps = None) /\
  (forall (pre post : list PredicateFunc) (p : Predicate),
     Forall (fun q => q = None) pre -> Forall (fun q => q = None) post ->
     Generic_GetAndPredicate (pre ++ Some p :: post)%list = Some p /\
     Generic_GetOrPredicate (pre ++ Some p :: post)%list = Some p) /\
  Generic_GetNotPredicate None = None /\
  (forall p : Predicate, Generic_GetNotPredicate (Some p) = Some (sql_Not p)).
Proof.
  repeat apply conj.
  - reflexivity.
  - intros sub H. rewrite ParseFilterToPredicates_eq.
    cbn -[ParseFilterToPredicates]. rewrite H. reflexivity.
  - intros item items preds ops H. cbn -[ParseFilterToPredicates].
    rewrite H. reflexivity.
  - intros item items preds ops p H. cbn -[ParseFilterToPredicates].
    rewrite H. reflexivity.
  - intros items preds ops H.
    eapply collectGroup_non_nil; [exact H | constructor].
  - intros ps H.
    unfold Generic_GetAndPredicate, Generic_GetOrPredicate.
    rewrite (validPreds_all_nil ps H). split; reflexivity.
  - intros pre post p Hpre Hpost.
    unfold Generic_GetAndPredicate, Generic_GetOrPredicate.
    rewrite (validPreds_single pre post p Hpre Hpost). split; reflexivity.
  - reflexivity.
  - reflexivity.
Qed.

(** ** Malformed groups *)

(** An array that starts with a field name and is not three long reaches
    the same unchecked assertion. *)
Lemma short_leaf_panics (record : Record_) (schema : TableSchema)
    (s : string) (rest : list Value) :
  s <> "!" -> length rest <> 2%nat ->
  applyFilterRecursive record schema (VStr s :: rest) = Panic.
Proof.
  intros Hs Hlen. rewrite applyFilterRecursive_eq, (eqb_bang_false _ Hs).
  destruct rest as [|? [|? [|? ?]]]; try reflexivity.
  exfalso. apply Hlen. reflexivity.
Qed.

(** A leaf whose operator slot holds a non-string is evaluated with the
    empty operator, which no switch knows: the leaf is [false], no error. *)
Lemma non_string_operator_is_silent (recordVal filterVal : Value)
    (fieldType : string) :
  evaluateCondition recordVal "" filterVal fieldType = false.
Proof.
  evaluateCondition_cases "" fieldType.
Qed.

(** C2.  A group whose first element is neither a string nor an array (a
    number, say) makes the in-memory evaluator panic:
    [filterGroup[0].([]interface{})] is an unchecked type assertion.  So
    does the two-element array [["amount", "="]].  The predicate builder
    returns an error on a number at the head and on [["amount", "="]]. *)
Theorem group_head_assertion_panics (record : Record_) (schema : TableSchema)
    (a : EntityAdapter) (first : Value) (x : float64) (rest : list Value) :
  match first with
  | VStr _ | VArr _ => True
  | _ => applyFilterRecursive record schema (first :: rest) = Panic
  end /\
  applyFilterRecursive record schema (VFloat64 x :: rest) = Panic /\
  applyFilterRecursive record schema [VStr "amount"; VStr "="] = Panic /\
  ParseFilterToPredicates (Some a) (VArr (VFloat64 x :: rest))
  = Err (GroupSubCondition (NotArray (VFloat64 x)) (VFloat64 x)) /\
  ParseFilterToPredicates (Some a) (VArr [VStr "amount"; VStr "="])
  = Err (GroupSubCondition (NotArray (VStr "amount")) (VStr "amount")).
Proof. repeat split. destruct first; exact I || reflexivity. Qed.

(** What the in-memory evaluator does with a dangling operator: once the
    first operand has evaluated, [i+1 >= len(filterGroup)] is met. *)
Lemma in_memory_dangling_operator (record : Record_) (schema : TableSchema)
    (A : list Value) (opv : Value) (m : bool) :
  applyFilterRecursive record schema A = Ok m ->
  applyFilterRecursive record schema [VArr A; opv] = Err EvalMalformedGroup.
Proof. intro H. rewrite applyFilterRecursive_eq, H. reflexivity. Qed.

(** C3.  In the predicate builder a two-element chain [[A, "and"]] whose
    operand parses to a predicate returns that predicate and no error: with
    a single collected predicate the function returns before it compares
    the number of operators with the number of predicates. *)
Theorem dangling_operator_is_accepted (a : EntityAdapter) (A : Value)
    (op : string) (p : Predicate) :
  strings.ToLower op = "and" \/ strings.ToLower op = "or" ->
  ParseFilterToPredicates (Some a) A = Ok (Some p) ->
  ParseFilterToPredicates (Some a) (VArr [A; VStr op]) = Ok (Some p).
Proof.
  intros Hop HA.
  assert (Hg : parseGroup a [A; VStr op] = Ok (Some p)).
  { unfold parseGroup. cbn -[ParseFilterToPredicates String.eqb].
    rewrite HA. cbn -[String.eqb].
    destruct Hop as [-> | ->]; reflexivity. }
  rewrite ParseFilterToPredicates_eq.
  destruct A; try exact Hg.
  rewrite ParseFilterToPredicates_eq in HA. discriminate.
Qed.

(** ** [between] *)

Lemma generic_between_float (ga : GenericEntAdapter) (field : string)
    (fieldSchema : SchemaFieldDefinition) (lo hi : float64) :
  FieldMap (tableSchema ga) !! strings.ToLower field = Some fieldSchema ->
  Type_ fieldSchema = "float64" ->
  Generic_GetPredicateForField ga field "between" (VArr [VFloat64 lo; VFloat64 hi])
  = Ok (Some (sql_And [sql_GTE (strings.ToLower field) (VFloat64 lo);
                       sql_LTE (strings.ToLower field) (VFloat64 hi)])).
Proof.
  intros Hf Ht. unfold Generic_GetPredicateForField. rewrite Hf, Ht.
  reflexivity.
Qed.

(** C4.  The in-memory [evaluateCondition] has no [between] arm: for every
    record value, filter value and field type the leaf is [false]. *)
Lemma evaluateCondition_between (recordVal filterVal : Value)
    (fieldType : string) :
  evaluateCondition recordVal "between" filterVal fieldType = false.
Proof.
  evaluateCondition_cases "between" fieldType.
Qed.

(** C4.  The in-memory [evaluateCondition] has no [between] arm: for every
    record value, filter value and field type the comparison is [false],
    so a [between] leaf is a non-match on every record that has the field
    (and on every record that lacks it), whatever the bounds. *)
Theorem between_is_missing_in_memory (record : Record_) (schema : TableSchema)
    (recordVal filterVal : Value) (field fieldType : string) :
  evaluateCondition recordVal "between" filterVal fieldType = false /\
  (evalLeaf record schema field (VStr "between") filterVal = Ok false \/
   evalLeaf record schema field (VStr "between") filterVal
   = Err (EvalFieldNotFound field)).
Proof.
  split; [apply evaluateCondition_between|].
  unfold evalLeaf. cbn [stringOrEmpty].
  destruct (FieldMap schema !! strings.ToLower field); [left|right; reflexivity].
  destruct (record !! field); [|reflexivity].
  rewrite evaluateCondition_between. reflexivity.
Qed.

(** ** Case folding *)

(** On ASCII text [EqualFold] compares the lower-cased operands. *)
Lemma foldASCII_lowerASCII (s t : string) :
  strings.foldASCII s t = (strings.lowerASCII s =? strings.lowerASCII t).
Proof.
  revert t. induction s as [|a s IH]; intros [|b t]; try reflexivity.
  cbn [strings.foldASCII strings.lowerASCII String.eqb]. rewrite IH.
  destruct (Ascii.eqb _ _); reflexivity.
Qed.

Lemma ToLower_ASCII (s : string) :
  strings.isASCII s = true -> strings.ToLower s = strings.lowerASCII s.
Proof. intro H. unfold strings.ToLower. rewrite H. reflexivity. Qed.

Lemma EqualFold_ToLower (s t : string) :
  strings.isASCII s = true -> strings.isASCII t = true ->
  strings.EqualFold s t = (strings.ToLower s =? strings.ToLower t).
Proof.
  intros Hs Ht. rewrite !ToLower_ASCII by assumption.
  unfold strings.EqualFold. rewrite Hs, Ht. apply foldASCII_lowerASCII.
Qed.

(** A field declared [text] has no arm in [evaluateCondition]. *)
Lemma evaluateCondition_text (rv fv : Value) (op : string) :
  evaluateCondition rv op fv "text" = false.
Proof. reflexivity. Qed.

(** For a field declared [string] or [text] alike, the generic adapter
    builds [ContainsFold] for [contains] and [notcontains], and [EQ], [NEQ],
    [HasPrefix], [HasSuffix] on the operand as given for the other four. *)
Lemma generic_string_operators (ga : GenericEntAdapter) (field v : string)
    (fieldSchema : SchemaFieldDefinition) :
  FieldMap (tableSchema ga) !! strings.ToLower field = Some fieldSchema ->
  Type_ fieldSchema = "string" \/ Type_ fieldSchema = "text" ->
  let col := strings.ToLower field in
  let build := fun o => Generic_GetPredicateForField ga field o (VStr v) in
  build "contains" = Ok (Some (sql_ContainsFold col v)) /\
  build "notcontains" = Ok (Some (sql_Not (sql_ContainsFold col v))) /\
  build "=" = Ok (Some (sql_EQ col (VStr v))) /\
  build "<>" = Ok (Some (sql_NEQ col (VStr v))) /\
  build "startswith" = Ok (Some (sql_HasPrefix col v)) /\
  build "endswith" = Ok (Some (sql_HasSuffix col v)).
Proof.
  intros Hs Ht col build. subst col build.
  unfold Generic_GetPredicateForField. rewrite Hs.
  destruct Ht as [-> | ->]; repeat split; reflexivity.
Qed.

(** C5.  [evaluateCondition] switches on the declared types [string],
    [int], [float64], [bool] and [time.Time] only, so on a field declared
    [text] every comparison falls through to [return false], whatever the
    operator and the two values.  The record [{"name":"Foo"}] therefore
    does not match [["name","=","foo"]], nor [["name","=","Foo"]], when
    [name] is declared [text], though it matches the former when [name] is
    declared [string]; while for a [text] field the generic adapter builds
    the six predicates it builds for a [string] field. *)
Theorem text_field_is_missing_in_memory (rv fv : Value) (op : string) :
  evaluateCondition rv op fv "text" = false /\
  (forall (schema : TableSchema) (fieldSchema : SchemaFieldDefinition)
          (s : string),
     FieldMap schema !! "name" = Some fieldSchema ->
     Type_ fieldSchema = "text" ->
     applyFilterRecursive (<["name" := VStr "Foo"]> ∅) schema
       [VStr "name"; VStr op; VStr s] = Ok false) /\
  (forall (schema : TableSchema) (fieldSchema : SchemaFieldDefinition),
     FieldMap schema !! "name" = Some fieldSchema ->
     Type_ fieldSchema = "string" ->
     applyFilterRecursive (<["name" := VStr "Foo"]> ∅) schema
       [VStr "name"; VStr "="; VStr "foo"] = Ok true) /\
  (forall (ga : GenericEntAdapter) (field v : string)
          (fieldSchema : SchemaFieldDefinition),
     FieldMap (tableSchema ga) !! strings.ToLower field = Some fieldSchema ->
     Type_ fieldSchema = "text" ->
     let col := strings.ToLower field in
     let build := fun o => Generic_GetPredicateForField ga field o (VStr v) in
     build "contains" = Ok (Some (sql_ContainsFold col v)) /\
     build "notcontains" = Ok (Some (sql_Not (sql_ContainsFold col v))) /\
     build "=" = Ok (Some (sql_EQ col (VStr v))) /\
     build "<>" = Ok (Some (sql_NEQ col (VStr v))) /\
     build "startswith" = Ok (Some (sql_HasPrefix col v)) /\
     build "endswith" = Ok (Some (sql_HasSuffix col v))).
Proof.
  repeat apply conj.
  - apply evaluateCondition_text.
  - intros schema fieldSchema s Hs Ht.
    rewrite applyFilterRecursive_eq. change ("name" =? "!") with false.
    cbv iota. unfold evalLeaf.
    change (strings.ToLower "name") with "name". rewrite Hs, Ht.
    vm_compute. reflexivity.
  - intros schema fieldSchema Hs Ht.
    rewrite applyFilterRecursive_eq. change ("name" =? "!") with false.
    cbv iota. unfold evalLeaf.
    change (strings.ToLower "name") with "name". rewrite Hs, Ht.
    vm_compute. reflexivity.
  - intros ga field v fieldSchema Hs Ht.
    apply (generic_string_operators ga field v fieldSchema Hs).
    right. exact Ht.
Qed.

(** ** Operators outside a type's table *)

Lemma comparisonOperators_None {A : Type} (inj : A -> Value) (op : string) :
  comparisonOperators inj op = None ->
  (op =? "=") = false /\ (op =? "<>") = false /\ (op =? ">") = false /\
  (op =? ">=") = false /\ (op =? "<") = false /\ (op =? "<=") = false.
Proof.
  unfold comparisonOperators.
  repeat match goal with
         | |- context [if ?c then _ else _] =>
             destruct c; [intro; discriminate|]
         end.
  auto 10.
Qed.

Lemma isSome_false {A : Type} (o : option A) :
  match o with Some _ => true | None => false end = false -> o = None.
Proof. destruct o; [discriminate | reflexivity]. Qed.

(** C6.  For a field of the schema whose declared type the adapter knows,
    an operand that converts to that type, and an operator other than
    [between] that the type's table lacks, the generic adapter fails with
    the unsupported-operator error, which carries the operator as written,
    the declared type and the field.  The in-memory leaf on the same
    field, operator and operand raises nothing: it falls through the
    operator switch of [evaluateCondition] to [return false], whatever the
    record holds. *)
Theorem unsupported_operator (ga : GenericEntAdapter) (record : Record_)
    (field op : string) (val : Value) (fieldSchema : SchemaFieldDefinition) :
  FieldMap (tableSchema ga) !! strings.ToLower field = Some fieldSchema ->
  strings.ToLower op <> "between" ->
  operatorDefined (Type_ fieldSchema) (strings.ToLower op) = false ->
  operandConverts (Type_ fieldSchema) val ->
  Generic_GetPredicateForField ga field op val
  = Err (UnsupportedOperator op (Type_ fieldSchema) field) /\
  evalLeaf record (tableSchema ga) field (VStr op) val = Ok false.
Proof.
  intros Hs Hb Hop Hconv. split.
  - unfold Generic_GetPredicateForField. rewrite Hs. cbv zeta.
    apply String.eqb_neq in Hb. rewrite Hb.
    unfold operatorDefined in Hop. unfold operandConverts in Hconv.
    destruct ((Type_ fieldSchema =? "string") || (Type_ fieldSchema =? "text")).
    { destruct Hconv as [s ->]. rewrite (isSome_false _ Hop). reflexivity. }
    destruct (Type_ fieldSchema =? "int").
    { destruct Hconv as [i ->]. cbn [wrap bind].
      rewrite (isSome_false _ Hop). reflexivity. }
    destruct (Type_ fieldSchema =? "float64").
    { destruct Hconv as [f ->]. cbn [wrap bind].
      rewrite (isSome_false _ Hop). reflexivity. }
    destruct (Type_ fieldSchema =? "bool").
    { rewrite (isSome_false _ Hop).
      destruct Hconv as [[b ->] | (s & b & -> & ->)]; reflexivity. }
    destruct (Type_ fieldSchema =? "time.Time").
    { destruct Hconv as [t ->]. cbn [wrap bind].
      rewrite (isSome_false _ Hop). reflexivity. }
    contradiction.
  - unfold evalLeaf. rewrite Hs. cbn [stringOrEmpty].
    destruct (record !! field) as [rv|]; [|reflexivity]. f_equal.
    unfold evaluateCondition. cbv zeta.
    unfold operatorDefined in Hop.
    destruct (Type_ fieldSchema =? "string") eqn:E1.
    { cbn [orb] in Hop. apply isSome_false in Hop.
      unfold stringOperators in Hop.
      repeat match type of Hop with
             | (if ?c then _ else _) = None =>
                 destruct c eqn:?; try discriminate
             end.
      reflexivity. }
    cbn [orb] in Hop.
    destruct (Type_ fieldSchema =? "text") eqn:E2.
    { apply String.eqb_eq in E2. rewrite E2. reflexivity. }
    destruct (Type_ fieldSchema =? "int").
    { apply isSome_false, comparisonOperators_None in Hop
        as (-> & -> & -> & -> & -> & ->).
      case_matches; reflexivity. }
    destruct (Type_ fieldSchema =? "float64").
    { apply isSome_false, comparisonOperators_None in Hop
        as (-> & -> & -> & -> & -> & ->).
      case_matches; reflexivity. }
    destruct (Type_ fieldSchema =? "bool").
    { apply isSome_false in Hop. unfold boolOperators in Hop.
      repeat match type of Hop with
             | (if ?c then _ else _) = None =>
                 destruct c eqn:?; try discriminate
             end.
      case_matches; reflexivity. }
    destruct (Type_ fieldSchema =? "time.Time"); [|reflexivity].
    apply isSome_false, comparisonOperators_None in Hop
      as (-> & -> & -> & -> & -> & ->).
    case_matches; reflexivity.
Qed.

(** ** The two backends on one expression *)

(** Induction on a value that reaches the elements of an array. *)
Lemma Value_nested_ind (P : Value -> Prop) :
  (forall v, match v with VArr _ => False | _ => True end -> P v) ->
  (forall l, Forall P l -> P (VArr l)) ->
  forall v, P v.
Proof.
  intros Hbase Harr.
  fix IH 1. intros [| | | | | |l|]; try (apply Hbase; exact I).
  apply Harr. induction l as [|x l IHl]; constructor; [apply IH | exact IHl].
Qed.







Section Equivalence.
Variable accepts : Predicate -> Record_ -> bool.
Hypothesis engine : BooleanEngine accepts.
Variable ga : GenericEntAdapter.




End Equivalence.

(** ** The two backends on plain expressions *)

(** The reference reading has Boolean connectives. *)
Lemma rowAccepts_Boolean (schema : TableSchema) :
  BooleanEngine (rowAccepts schema).
Proof. repeat split. Qed.



















End Facts.

(** * Further facts *)

Section FieldMaps.
Context `{T : GoTypes} `{U : GoUnicode} `{L : !GoLib}.

Lemma buildFieldMap_snoc (fields : list SchemaFieldDefinition)
    (f : SchemaFieldDefinition) :
  buildFieldMap (fields ++ [f])
  = <[strings.ToLower (Name f) := f]> (buildFieldMap fields).
Proof. unfold buildFieldMap. rewrite foldl_app. reflexivity. Qed.

(** What the index holds. *)
Lemma buildFieldMap_spec (fields : list SchemaFieldDefinition) :
  (forall k f, buildFieldMap fields !! k = Some f ->
     In f fields /\ k = strings.ToLower (Name f)) /\
  (forall f, In f fields ->
     exists f', buildFieldMap fields !! strings.ToLower (Name f) = Some f' /\
                strings.ToLower (Name f') = strings.ToLower (Name f)).
Proof.
  induction fields as [|g fields [IHs IHc]] using rev_ind.
  - split; [intros k f H; discriminate H | intros f []].
  - rewrite buildFieldMap_snoc. split.
    + intros k f H.
      destruct (decide (strings.ToLower (Name g) = k)) as [<-|Hne].
      * rewrite lookup_insert_eq in H. injection H as <-.
        split; [apply in_or_app; right; left|]; reflexivity.
      * rewrite lookup_insert_ne in H by exact Hne.
        destruct (IHs k f H) as [Hin Hk]. split; [|exact Hk].
        apply in_or_app. left. exact Hin.
    + intros f Hin.
      destruct (decide (strings.ToLower (Name g) = strings.ToLower (Name f)))
        as [Heq|Hne].
      * exists g. rewrite <- Heq, lookup_insert_eq. split; reflexivity.
      * rewrite lookup_insert_ne by exact Hne.
        apply in_app_or in Hin as [Hin|[->|[]]]; [apply IHc; exact Hin|].
        contradiction Hne; reflexivity.
Qed.

(** X1.  The index that [LoadTableSchema] and [NewGenericEntAdapter] build
    holds exactly the schema's fields, each under its lower-cased name:
    whatever a key finds is a field of the list whose lower-cased name is
    the key, and every field of the list is found under its lower-cased
    name, by a field of the same name up to letter case. *)
Theorem buildFieldMap_sound_complete (fields : list SchemaFieldDefinition) :
  (forall k f, buildFieldMap fields !! k = Some f ->
     In f fields /\ k = strings.ToLower (Name f)) /\
  (forall f, In f fields ->
     exists f', buildFieldMap fields !! strings.ToLower (Name f) = Some f' /\
                strings.ToLower (Name f') = strings.ToLower (Name f)).
Proof. exact (buildFieldMap_spec fields). Qed.

(** X2.  Of several fields with the same lower-cased name the last one is
    the one the index keeps: a field after which no field of the same
    lower-cased name follows is found under that name.  In a schema whose
    names are distinct up to letter case, that is every field. *)
Theorem buildFieldMap_last_wins (pre post : list SchemaFieldDefinition)
    (f : SchemaFieldDefinition) :
  Forall (fun g => strings.ToLower (Name g) <> strings.ToLower (Name f)) post ->
  buildFieldMap (pre ++ f :: post) !! strings.ToLower (Name f) = Some f.
Proof.
  induction post as [|g post IH] using rev_ind; intro Hpost.
  - rewrite buildFieldMap_snoc, lookup_insert_eq. reflexivity.
  - apply Forall_app in Hpost as [Hpost Hg].
    apply Forall_cons in Hg as [Hg _].
    change (pre ++ f :: post ++ [g])%list with (pre ++ (f :: post) ++ [g])%list.
    rewrite app_assoc, buildFieldMap_snoc, lookup_insert_ne by exact Hg.
    apply IH. exact Hpost.
Qed.

End FieldMaps.

Section Registries.
Context `{T : GoTypes} `{U : GoUnicode} `{L : !GoLib}.

(** X3.  The adapter registry is keyed by entity name up to letter case:
    after [RegisterAdapter], [GetAdapter] under any spelling of the same
    lower-cased name returns the adapter registered last; a name with a
    different lower-cased form is answered as before; and a name never
    registered is answered with the no-adapter error, carrying the name as
    asked. *)
Theorem registry_round_trip (reg : gmap string (option EntityAdapter))
    (name name' : string) (adapter : option EntityAdapter) :
  (strings.ToLower name' = strings.ToLower name ->
   GetAdapter (RegisterAdapter reg name adapter) name' = inl adapter) /\
  (strings.ToLower name' <> strings.ToLower name ->
   GetAdapter (RegisterAdapter reg name adapter) name' = GetAdapter reg name') /\
  GetAdapter (∅ : gmap string (option EntityAdapter)) name'
  = inr (NoAdapterRegistered name').
Proof.
  unfold GetAdapter, RegisterAdapter. repeat split.
  - intros ->. rewrite lookup_insert_eq. reflexivity.
  - intro Hne. rewrite lookup_insert_ne by (intro H; apply Hne; symmetry; exact H).
    reflexivity.
Qed.

End Registries.

Section RecordSets.
Context `{T : GoTypes} `{U : GoUnicode} `{L : !GoLib}.

(** What a successful run of the record loop returns. *)
Lemma filterRecords_ok (data : list Record_) (schema : TableSchema)
    (filterArray : list Value) (res : list Record_) :
  filterRecords data schema filterArray = Ok res ->
  res = List.filter (matchesRecord schema filterArray) data /\
  Forall (fun r => exists m, applyFilterRecursive r schema filterArray = Ok m)
    data.
Proof.
  revert res. induction data as [|r data IH]; intros res H.
  - cbn in H. injection H as <-. split; constructor.
  - cbn -[applyFilterRecursive] in H.
    apply bind_ok in H as (m & Hm & H).
    apply bind_ok in H as (res' & Hres' & H). injection H as <-.
    destruct (applyFilterRecursive r schema filterArray) as [m'| |] eqn:E;
      try discriminate Hm.
    cbn in Hm. injection Hm as ->.
    destruct (IH res' Hres') as [-> Hall].
    split; [|constructor; eauto].
    cbn [List.filter].
    replace (matchesRecord schema filterArray r) with m
      by (unfold matchesRecord; rewrite E; destruct m; reflexivity).
    destruct m; reflexivity.
Qed.

Lemma filter_sublist_of {A : Type} (f : A -> bool) (l : list A) :
  sublist (List.filter f l) l.
Proof.
  induction l as [|x l IH]; [constructor|].
  cbn [List.filter]. destruct (f x); constructor; exact IH.
Qed.

(** X4.  When [FilterDynamicData] succeeds on an array filter, what it
    returns is the input records that pass the filter, each once, in their
    original order: the input with the non-matching records removed. *)
Theorem FilterDynamicData_is_filter (data : list Record_)
    (schema : TableSchema) (filterArray : list Value) (res : list Record_) :
  FilterDynamicData data schema (VArr filterArray) = Ok res ->
  res = List.filter (matchesRecord schema filterArray) data /\
  sublist res data.
Proof.
  intro H.
  assert (Hres : res = List.filter (matchesRecord schema filterArray) data).
  { destruct filterArray as [|x fa].
    - cbn in H. injection H as <-.
      induction data as [|r data IH]; [reflexivity|].
      cbn [List.filter].
      change (matchesRecord schema [] r) with true. cbv iota.
      f_equal. exact IH.
    - apply filterRecords_ok. exact H. }
  split; [exact Hres|]. rewrite Hres. apply filter_sublist_of.
Qed.

Lemma filterRecords_app (d1 d2 : list Record_) (schema : TableSchema)
    (filterArray : list Value) :
  filterRecords (d1 ++ d2) schema filterArray
  = bind (filterRecords d1 schema filterArray) (fun r1 =>
    bind (filterRecords d2 schema filterArray) (fun r2 => Ok (r1 ++ r2)%list)).
Proof.
  induction d1 as [|r d1 IH].
  - cbn -[applyFilterRecursive].
    destruct (filterRecords d2 schema filterArray); reflexivity.
  - cbn -[applyFilterRecursive]. rewrite IH.
    destruct (wrap EvalRecord (applyFilterRecursive r schema filterArray))
      as [m| |]; cbn [bind]; try reflexivity.
    destruct (filterRecords d1 schema filterArray) as [r1| |];
      cbn [bind]; try reflexivity.
    destruct (filterRecords d2 schema filterArray) as [r2| |];
      cbn [bind]; try reflexivity.
    destruct m; reflexivity.
Qed.

(** X5.  Filtering is idempotent: filtering the records it returned, with
    the same schema and filter, returns them again. *)
Theorem FilterDynamicData_idempotent (data : list Record_)
    (schema : TableSchema) (filterInput : Value) (res : list Record_) :
  FilterDynamicData data schema filterInput = Ok res ->
  FilterDynamicData res schema filterInput = Ok res.
Proof.
  intro H.
  destruct filterInput as [| | | | | |fa|]; try discriminate H;
    [reflexivity|].
  destruct fa as [|x fa]; [reflexivity|].
  change (filterRecords data schema (x :: fa) = Ok res) in H.
  change (filterRecords res schema (x :: fa) = Ok res).
  revert res H. induction data as [|r data IH]; intros res H.
  - cbn in H. injection H as <-. reflexivity.
  - cbn -[applyFilterRecursive] in H.
    apply bind_ok in H as (m & Hm & H).
    apply bind_ok in H as (res' & Hres' & H). injection H as <-.
    specialize (IH res' Hres').
    destruct m; [|exact IH].
    cbn -[applyFilterRecursive]. rewrite Hm, IH. reflexivity.
Qed.

(** X6.  Filtering distributes over concatenation of record sets: the
    result on [d1 ++ d2] is the result on [d1] followed by the result on
    [d2], and fails with the first failure of the two. *)
Theorem FilterDynamicData_app (d1 d2 : list Record_) (schema : TableSchema)
    (filterInput : Value) :
  FilterDynamicData (d1 ++ d2) schema filterInput
  = bind (FilterDynamicData d1 schema filterInput) (fun r1 =>
    bind (FilterDynamicData d2 schema filterInput) (fun r2 =>
    Ok (r1 ++ r2)%list)).
Proof.
  destruct filterInput as [| | | | | |fa|]; try reflexivity.
  destruct fa as [|x fa]; [reflexivity|].
  apply filterRecords_app.
Qed.

End RecordSets.

Section Shapes.
Context `{T : GoTypes} `{U : GoUnicode} `{L : !GoLib}.

(** X7.  Negation cancels in memory: [["!", ["!", A]]] evaluates as [A]
    does, failures included.  The builder keeps both negations,
    [Not(Not(p))], which a Boolean engine accepts exactly when it accepts
    [p]. *)
Theorem double_negation (record : Record_) (schema : TableSchema)
    (a : EntityAdapter) (A : list Value) :
  applyFilterRecursive record schema [VStr "!"; VArr [VStr "!"; VArr A]]
  = applyFilterRecursive record schema A /\
  (forall (ga : GenericEntAdapter) (p : Predicate),
     ParseFilterToPredicates (Some (genericAdapter ga)) (VArr A) = Ok (Some p) ->
     ParseFilterToPredicates (Some (genericAdapter ga))
       (VArr [VStr "!"; VArr [VStr "!"; VArr A]])
     = Ok (Some (sql_Not (sql_Not p))) /\
     forall accepts row, BooleanEngine accepts ->
       accepts (sql_Not (sql_Not p)) row = accepts p row).
Proof.
  split.
  - rewrite applyFilterRecursive_eq. cbn -[applyFilterRecursive].
    rewrite (applyFilterRecursive_eq record schema [VStr "!"; VArr A]).
    cbn -[applyFilterRecursive].
    destruct (applyFilterRecursive record schema A) as [m| |];
      cbn [bind]; try reflexivity.
    rewrite negb_involutive. reflexivity.
  - intros ga p Hp. split.
    + rewrite ParseFilterToPredicates_eq. cbn -[ParseFilterToPredicates].
      rewrite (ParseFilterToPredicates_eq _ (VArr [VStr "!"; VArr A])).
      cbn -[ParseFilterToPredicates]. rewrite Hp. reflexivity.
    + intros accepts row (_ & _ & HNot).
      rewrite !HNot, negb_involutive. reflexivity.
Qed.

(** X8.  Extra brackets change nothing: the one-element group [[A]]
    evaluates in memory as [A] does, and the builder returns for [[A]] what
    it returns for [A] whenever either call succeeds. *)
Theorem single_element_group (record : Record_) (schema : TableSchema)
    (a : EntityAdapter) (A : list Value) :
  applyFilterRecursive record schema [VArr A]
  = applyFilterRecursive record schema A /\
  okPart (ParseFilterToPredicates (Some a) (VArr [VArr A]))
  = okPart (ParseFilterToPredicates (Some a) (VArr A)).
Proof.
  split.
  - rewrite applyFilterRecursive_eq. cbn -[applyFilterRecursive].
    destruct (applyFilterRecursive record schema A); reflexivity.
  - rewrite ParseFilterToPredicates_eq. unfold parseGroup.
    cbn -[ParseFilterToPredicates].
    destruct (ParseFilterToPredicates (Some a) (VArr A)) as [[p|]| |];
      reflexivity.
Qed.

(** The chain of two operands, in full. *)
Lemma chain_of_two (record : Record_) (schema : TableSchema)
    (A B : list Value) (o : string) :
  applyFilterRecursive record schema [VArr A; VStr o; VArr B]
  = bind (applyFilterRecursive record schema A) (fun ra =>
    bind (applyFilterRecursive record schema B) (fun rb =>
    if strings.ToLower o =? "and" then Ok (ra && rb)
    else if strings.ToLower o =? "or" then Ok (ra || rb)
    else Err (EvalInvalidLogicalOperator o))).
Proof.
  rewrite applyFilterRecursive_eq. cbn -[applyFilterRecursive String.eqb].
  destruct (applyFilterRecursive record schema A) as [ra| |];
    cbn -[applyFilterRecursive String.eqb]; try reflexivity.
  all: destruct (applyFilterRecursive record schema B) as [rb| |];
    cbn -[String.eqb]; try reflexivity.
  all: destruct (strings.ToLower o =? "and"); try reflexivity.
  all: destruct (strings.ToLower o =? "or"); reflexivity.
Qed.

(** X9.  A two-operand chain in memory, in full: both operands are always
    evaluated, left then right, and the first failure is returned; only
    then is the operator looked at, without regard to letter case.  So
    [true or B] fails when [B] fails, and an unknown operator is reported
    only when both operands have evaluated. *)
Theorem two_operand_chain (record : Record_) (schema : TableSchema)
    (A B : list Value) (o : string) :
  applyFilterRecursive record schema [VArr A; VStr o; VArr B]
  = bind (applyFilterRecursive record schema A) (fun ra =>
    bind (applyFilterRecursive record schema B) (fun rb =>
    if strings.ToLower o =? "and" then Ok (ra && rb)
    else if strings.ToLower o =? "or" then Ok (ra || rb)
    else Err (EvalInvalidLogicalOperator o))).
Proof. exact (chain_of_two record schema A B o). Qed.

Lemma parse_ok_not_string (a : EntityAdapter) (v : Value) (p : PredicateFunc) :
  ParseFilterToPredicates (Some a) v = Ok p ->
  match v with VNil | VArr _ => True | _ => False end.
Proof. destruct v; intro H; try exact I; discriminate H. Qed.

(** X10.  The builder looks at a chain operator before it parses the next
    operand: after a first operand that parses, an operator that is
    neither [and] nor [or] (in any letter case) fails the parse with the
    invalid-operator error, whatever follows it; a non-string in the
    operator slot fails it likewise. *)
Theorem builder_checks_operator_first (a : EntityAdapter) (A : Value)
    (p : PredicateFunc) (o : string) (x : Value) (rest : list Value) :
  ParseFilterToPredicates (Some a) A = Ok p ->
  strings.ToLower o <> "and" -> strings.ToLower o <> "or" ->
  ParseFilterToPredicates (Some a) (VArr (A :: VStr o :: rest))
  = Err (InvalidLogicalOperator o) /\
  (match x with VStr _ => True | _ =>
     ParseFilterToPredicates (Some a) (VArr (A :: x :: rest))
     = Err (LogicalOperatorNotString x) end).
Proof.
  intros HA Hand Hor.
  apply String.eqb_neq in Hand, Hor.
  pose proof (parse_ok_not_string a A p HA) as HAshape.
  split.
  - rewrite ParseFilterToPredicates_eq.
    assert (Hg : parseGroup a (A :: VStr o :: rest)
                 = Err (InvalidLogicalOperator o)).
    { unfold parseGroup. cbn -[ParseFilterToPredicates String.eqb].
      rewrite HA. cbn -[ParseFilterToPredicates String.eqb].
      rewrite Hand, Hor. reflexivity. }
    destruct A; try contradiction; exact Hg.
  - destruct x; try exact I;
      rewrite ParseFilterToPredicates_eq;
      (destruct A; try contradiction);
      unfold parseGroup; cbn -[ParseFilterToPredicates String.eqb];
      rewrite HA; reflexivity.
Qed.

(** X11.  In the builder a three-element array that starts with [and] or
    [or], in any letter case, is never read as a leaf condition on a field
    of that name: it is parsed as a group and fails on its first element,
    which is not an array.  The in-memory evaluator has no such check and
    reads the same array as a leaf on the field so named. *)
Theorem reserved_token_is_not_a_field (a : EntityAdapter)
    (record : Record_) (schema : TableSchema) (s : string) (x y : Value) :
  strings.ToLower s = "and" \/ strings.ToLower s = "or" ->
  ParseFilterToPredicates (Some a) (VArr [VStr s; x; y])
  = Err (GroupSubCondition (NotArray (VStr s)) (VStr s)) /\
  applyFilterRecursive record schema [VStr s; x; y]
  = evalLeaf record schema s x y.
Proof.
  intro Hs.
  assert (Hbang : (s =? "!") = false).
  { apply String.eqb_neq. intros ->. destruct Hs as [H|H]; discriminate H. }
  split.
  - rewrite ParseFilterToPredicates_eq, Hbang.
    assert (Htok : isLogicalToken (strings.ToLower s) = true).
    { unfold isLogicalToken. destruct Hs as [-> | ->]; reflexivity. }
    rewrite Htok. reflexivity.
  - rewrite applyFilterRecursive_eq, Hbang. reflexivity.
Qed.

(** X12.  A chain with an operand that parses to no predicate can be
    rejected although it is well formed: with two further operands that
    parse to predicates, two predicates and two operators are collected
    and the builder fails with the mismatch error. *)
Theorem nil_operand_breaks_chain (a : EntityAdapter) (N A B : Value)
    (o1 o2 : string) (pa pb : Predicate) :
  ParseFilterToPredicates (Some a) N = Ok None ->
  ParseFilterToPredicates (Some a) A = Ok (Some pa) ->
  ParseFilterToPredicates (Some a) B = Ok (Some pb) ->
  strings.ToLower o1 = "and" \/ strings.ToLower o1 = "or" ->
  strings.ToLower o2 = "and" \/ strings.ToLower o2 = "or" ->
  ParseFilterToPredicates (Some a) (VArr [N; VStr o1; A; VStr o2; B])
  = Err (Mismatched 2 2).
Proof.
  intros HN HA HB H1 H2.
  pose proof (parse_ok_not_string a N None HN) as HNshape.
  rewrite ParseFilterToPredicates_eq.
  assert (Hg : parseGroup a [N; VStr o1; A; VStr o2; B]
               = Err (Mismatched 2 2)).
  { unfold parseGroup. cbn -[ParseFilterToPredicates String.eqb].
    rewrite HN. cbn -[ParseFilterToPredicates String.eqb].
    assert (E1 : negb (strings.ToLower o1 =? "and")
                 && negb (strings.ToLower o1 =? "or") = false)
      by (destruct H1 as [-> | ->]; reflexivity).
    assert (E2 : negb (strings.ToLower o2 =? "and")
                 && negb (strings.ToLower o2 =? "or") = false)
      by (destruct H2 as [-> | ->]; reflexivity).
    rewrite E1, HA. cbn -[ParseFilterToPredicates String.eqb].
    rewrite E2, HB. reflexivity. }
  destruct N; try contradiction; exact Hg.
Qed.

(** X13.  Negation takes exactly one operand.  With any other number of
    elements after ["!"] both backends fail with their malformed-NOT error,
    which carries the length of the whole array.  With one operand that is
    not an array the in-memory evaluator fails; the builder fails too,
    unless the operand is nil, which it parses to no predicate. *)
Theorem negation_arity (record : Record_) (schema : TableSchema)
    (a : EntityAdapter) (rest : list Value) (x : Value) :
  (length rest <> 1%nat ->
   applyFilterRecursive record schema (VStr "!" :: rest)
   = Err (EvalMalformedNot (S (length rest))) /\
   ParseFilterToPredicates (Some a) (VArr (VStr "!" :: rest))
   = Err (MalformedNot (S (length rest)) (VStr "!" :: rest))) /\
  (match x with
   | VArr _ => True
   | _ => applyFilterRecursive record schema [VStr "!"; x]
          = Err (EvalNotOperandNotArray x)
   end) /\
  (match x with
   | VArr _ => True
   | VNil => ParseFilterToPredicates (Some a) (VArr [VStr "!"; x]) = Ok None
   | _ => ParseFilterToPredicates (Some a) (VArr [VStr "!"; x])
          = Err (NotSubCondition (NotArray x) x)
   end).
Proof.
  repeat split.
  - rewrite applyFilterRecursive_eq. cbn.
    destruct rest as [|? [|? ?]]; try reflexivity. contradiction H; reflexivity.
  - rewrite ParseFilterToPredicates_eq. cbn -[ParseFilterToPredicates].
    destruct rest as [|? [|? ?]]; try reflexivity. contradiction H; reflexivity.
  - destruct x; try exact I; reflexivity.
  - destruct x; try exact I; reflexivity.
Qed.

End Shapes.

Section Adapter.
Context `{T : GoTypes} `{U : GoUnicode} `{L : !GoLib}.

(** Case analysis on the innermost things the goal, or a hypothesis,
    branches on. *)
Ltac case_inner :=
  repeat match goal with
         | |- context [match ?x with _ => _ end] =>
             lazymatch x with
             | context [match _ with _ => _ end] => fail
             | _ => destruct x; cbv beta iota
             end
         end.

Ltac case_inner_in H :=
  repeat match type of H with
         | context [match ?x with _ => _ end] =>
             lazymatch x with
             | context [match _ with _ => _ end] => fail
             | _ => destruct x eqn:?; cbv beta iota in H; try discriminate H
             end
         end.

Ltac unfold_adapter :=
  unfold Generic_GetPredicateForField, betweenPredicate, intOperators,
    floatOperators, timeOperators, comparisonOperators, stringOperators,
    boolOperators, convertToInt, convertToFloat64, convertToTime, bind, wrap.

Lemma generic_leaf_never_panics (ga : GenericEntAdapter) (field op : string)
    (val : Value) :
  Generic_GetPredicateForField ga field op val <> Panic.
Proof. unfold_adapter. cbv zeta. case_inner; discriminate. Qed.

Lemma foldOps_never_panics (a : EntityAdapter) (ops : list string) :
  forall cur nexts, foldOps a cur nexts ops <> Panic.
Proof.
  induction ops as [|op ops IH]; intros cur nexts;
    destruct nexts; cbn [foldOps]; try discriminate; apply IH.
Qed.

Lemma combineGroup_never_panics (a : EntityAdapter)
    (preds : list PredicateFunc) (ops : list string) :
  combineGroup a preds ops <> Panic.
Proof.
  unfold combineGroup. destruct preds as [|p [|q preds]]; try discriminate.
  destruct (negb _); [discriminate | apply foldOps_never_panics].
Qed.

Lemma collectGroup_never_panics (a : EntityAdapter) (items : list Value) :
  Forall (fun v => ParseFilterToPredicates (Some a) v <> Panic) items ->
  forall even preds ops, collectGroup (Some a) items even preds ops <> Panic.
Proof.
  induction 1 as [|item items Hitem _ IH]; intros even preds ops;
    [cbn; discriminate|].
  cbn -[ParseFilterToPredicates String.eqb]. destruct even.
  - destruct (ParseFilterToPredicates (Some a) item) as [p| |];
      cbn [wrap bind]; [apply IH | discriminate | contradiction].
  - destruct item; try discriminate.
    destruct (negb _ && negb _); [discriminate | apply IH].
Qed.

(** X14.  The builder has no unchecked step of its own: with an adapter
    whose leaf translation never panics, [ParseFilterToPredicates] never
    panics, on any value at all; every input gets a predicate, no
    predicate, or an error.  The generic adapter is such an adapter. *)
Theorem builder_never_panics (a : EntityAdapter) (filterInput : Value) :
  (forall field op val, GetPredicateForField a field op val <> Panic) ->
  ParseFilterToPredicates (Some a) filterInput <> Panic.
Proof.
  intro Hleaf.
  induction filterInput as [v Hv|l IH] using Value_nested_ind.
  - destruct v; try discriminate. destruct Hv.
  - rewrite ParseFilterToPredicates_eq.
    destruct l as [|first rest]; [discriminate|].
    assert (Hgroup : parseGroup a (first :: rest) <> Panic).
    { unfold parseGroup.
      pose proof (collectGroup_never_panics a (first :: rest) IH true [] [])
        as Hc.
      destruct (collectGroup _ _ _ _ _) as [[preds ops]| |];
        cbn [bind fst snd];
        [apply combineGroup_never_panics | discriminate | contradiction]. }
    destruct first; try exact Hgroup.
    destruct (s =? "!").
    + destruct rest as [|sub [|? ?]]; try discriminate.
      apply Forall_cons in IH as [_ IH]. apply Forall_cons in IH as [Hsub _].
      destruct (ParseFilterToPredicates (Some a) sub) as [[p|]| |];
        cbn [wrap bind]; try discriminate. contradiction.
    + destruct rest as [|opv [|value [|? ?]]]; try exact Hgroup.
      destruct (isLogicalToken _); [exact Hgroup|].
      destruct opv; try discriminate. apply Hleaf.
Qed.

(** X15.  The generic adapter reads field names and operators without
    regard to letter case: two spellings of the same lower-cased field
    name and of the same lower-cased operator give the same predicate, or
    both fail.  The in-memory comparison reads its operator the same
    way. *)
Theorem names_and_operators_fold_case (ga : GenericEntAdapter)
    (field field' op op' : string) (val recordVal : Value)
    (fieldType : string) :
  strings.ToLower field = strings.ToLower field' ->
  strings.ToLower op = strings.ToLower op' ->
  okPart (Generic_GetPredicateForField ga field op val)
  = okPart (Generic_GetPredicateForField ga field' op' val) /\
  evaluateCondition recordVal op val fieldType
  = evaluateCondition recordVal op' val fieldType.
Proof.
  intros Hf Ho. split.
  - unfold_adapter. cbv zeta. rewrite Hf, Ho. case_inner; reflexivity.
  - unfold evaluateCondition. rewrite Ho. reflexivity.
Qed.

(** X16.  Every column that a predicate built by the generic adapter
    names is the lower-cased field name of the leaf. *)
Theorem adapter_names_lower_cased_column (ga : GenericEntAdapter)
    (field op : string) (val : Value) (p : Predicate) :
  Generic_GetPredicateForField ga field op val = Ok (Some p) ->
  Forall (fun c => c = strings.ToLower field) (columns p).
Proof.
  unfold_adapter. cbv zeta. intro H.
  case_inner_in H; injection H as <-; cbn; repeat constructor.
Qed.

(** X17.  [between] in the generic adapter, in full.  The operand is
    checked first: anything but a two-element array fails, whatever the
    field's type.  On an [int], [float64] or [time.Time] field whose two
    bounds convert, the predicate is [And(GTE(col, lower), LTE(col,
    upper))] with the bounds in the order given, not compared with each
    other and never swapped.  On a field of any other type it fails with
    the not-supported error. *)
Theorem between_in_adapter (ga : GenericEntAdapter) (field op : string)
    (fieldSchema : SchemaFieldDefinition) (lo hi val : Value) :
  FieldMap (tableSchema ga) !! strings.ToLower field = Some fieldSchema ->
  strings.ToLower op = "between" ->
  let col := strings.ToLower field in
  let type := Type_ fieldSchema in
  let range := fun l u => Ok (Some (sql_And [sql_GTE col l; sql_LTE col u])) in
  (match val with
   | VArr [_; _] => True
   | _ => Generic_GetPredicateForField ga field op val
          = Err (BetweenNeedsTwoValues val field)
   end) /\
  (type = "int" -> forall l u,
     convertToInt lo = Ok l -> convertToInt hi = Ok u ->
     Generic_GetPredicateForField ga field op (VArr [lo; hi])
     = range (VInt l) (VInt u)) /\
  (type = "float64" -> forall l u,
     convertToFloat64 lo = Ok l -> convertToFloat64 hi = Ok u ->
     Generic_GetPredicateForField ga field op (VArr [lo; hi])
     = range (VFloat64 l) (VFloat64 u)) /\
  (type = "time.Time" -> forall l u,
     convertToTime lo = Ok l -> convertToTime hi = Ok u ->
     Generic_GetPredicateForField ga field op (VArr [lo; hi])
     = range (VTime l) (VTime u)) /\
  (type <> "int" -> type <> "float64" -> type <> "time.Time" ->
     Generic_GetPredicateForField ga field op (VArr [lo; hi])
     = Err (BetweenNotSupported type field)).
Proof.
  intros Hs Hop col type range. subst col type range.
  unfold Generic_GetPredicateForField. rewrite Hs, Hop.
  change ("between" =? "between") with true. cbv beta iota zeta.
  repeat apply conj.
  - destruct val as [| | | | | |[|? [|? [|? ?]]]|]; try exact I; reflexivity.
  - intros -> l u Hl Hu. unfold betweenPredicate. rewrite Hl, Hu. reflexivity.
  - intros -> l u Hl Hu. unfold betweenPredicate. rewrite Hl, Hu. reflexivity.
  - intros -> l u Hl Hu. unfold betweenPredicate. rewrite Hl, Hu. reflexivity.
  - intros H1 H2 H3. apply String.eqb_neq in H1, H2, H3.
    rewrite H1, H2, H3. reflexivity.
Qed.

(** X18.  On an [int] field the generic adapter converts the operand
    before it looks at the operator.  A [float64] with a fractional part
    does not convert, so every operator but [between], known or not, fails
    on it with the invalid-value error; one without a fractional part is
    passed on as [int(f)].  The in-memory comparison on an [int] field
    instead truncates both sides with [int(...)], so two record values
    with the same integer part compare alike. *)
Theorem fractional_operand_on_int_field (ga : GenericEntAdapter)
    (field op : string) (fieldSchema : SchemaFieldDefinition)
    (f r r' : float64) (filterVal : Value) :
  FieldMap (tableSchema ga) !! strings.ToLower field = Some fieldSchema ->
  Type_ fieldSchema = "int" ->
  strings.ToLower op <> "between" ->
  int_of_float64 r = int_of_float64 r' ->
  Generic_GetPredicateForField ga field op (VFloat64 f)
  = (if hasFraction f then
       Err (InvalidValue "int" field (FloatHasFraction f))
     else
       Generic_GetPredicateForField ga field op (VInt (int_of_float64 f))) /\
  evaluateCondition (VFloat64 r) op filterVal "int"
  = evaluateCondition (VFloat64 r') op filterVal "int".
Proof.
  intros Hs Ht Hop Hint. split.
  - unfold Generic_GetPredicateForField. rewrite Hs, Ht.
    apply String.eqb_neq in Hop. rewrite Hop.
    cbn -[String.eqb hasFraction]. destruct (hasFraction f); reflexivity.
  - unfold evaluateCondition. cbn -[String.eqb fmt_v]. rewrite Hint.
    reflexivity.
Qed.

(** X19.  A leaf fails as an unknown field exactly when no field of the
    schema has its name up to letter case, in both backends: on a schema
    indexed from a field list, the in-memory leaf returns the
    field-not-found error, and the adapter its own, if and only if the
    list has no field of that lower-cased name. *)
Theorem unknown_field_iff (entity : string)
    (fields : list SchemaFieldDefinition) (record : Record_)
    (fieldName : string) (opv value : Value) (op : string) :
  let schema := mkTableSchema entity fields in
  let ga := {| entityName := entity; tableSchema := schema |} in
  let absent := forall f, In f fields ->
                  strings.ToLower (Name f) <> strings.ToLower fieldName in
  (evalLeaf record schema fieldName opv value
   = Err (EvalFieldNotFound fieldName) <-> absent) /\
  (Generic_GetPredicateForField ga fieldName op value
   = Err (AdapterFieldNotFound fieldName entity) <-> absent).
Proof.
  intros schema ga absent. subst schema ga absent.
  destruct (buildFieldMap_spec fields) as [Hsound Hcomplete].
  assert (Hnone : buildFieldMap fields !! strings.ToLower fieldName = None <->
                  forall f, In f fields ->
                    strings.ToLower (Name f) <> strings.ToLower fieldName).
  { split.
    - intros Hn f Hin Heq.
      destruct (Hcomplete f Hin) as (f' & Hf' & _).
      rewrite Heq in Hf'. congruence.
    - intro Habs.
      destruct (buildFieldMap fields !! strings.ToLower fieldName) as [f|] eqn:E;
        [|reflexivity].
      destruct (Hsound _ _ E) as [Hin Hk]. exfalso.
      apply (Habs f Hin). symmetry. exact Hk. }
  split; rewrite <- Hnone.
  - unfold evalLeaf. cbn [FieldMap mkTableSchema].
    destruct (buildFieldMap fields !! strings.ToLower fieldName);
      [|split; reflexivity].
    split; [|discriminate]. destruct (record !! fieldName); discriminate.
  - unfold_adapter. cbv zeta. cbn [FieldMap mkTableSchema tableSchema].
    destruct (buildFieldMap fields !! strings.ToLower fieldName);
      [|split; reflexivity].
    split; [|discriminate]. intro H. exfalso.
    case_inner_in H; discriminate H.
Qed.

(** X20.  What the generic adapter's combinators mean to a Boolean engine.
    The query under [GetAndPredicate] of some predicates returns the rows
    that every non-nil one accepts; nil inputs do not count, and with none
    left every row is returned.  The query under [GetOrPredicate] returns
    the rows that some non-nil input accepts, except that with no non-nil
    input it too returns every row. *)
Theorem combinators_under_a_Boolean_engine
    (accepts : Predicate -> Record_ -> bool) (ps : list PredicateFunc)
    (rows : list Record_) :
  BooleanEngine accepts ->
  queryAll accepts (Generic_GetAndPredicate ps) rows
  = List.filter (fun r => forallb (fun p => accepts p r) (validPreds ps)) rows /\
  queryAll accepts (Generic_GetOrPredicate ps) rows
  = match validPreds ps with
    | [] => rows
    | qs => List.filter (fun r => existsb (fun p => accepts p r) qs) rows
    end.
Proof.
  intros (HAnd & HOr & _).
  unfold Generic_GetAndPredicate, Generic_GetOrPredicate.
  destruct (validPreds ps) as [|p [|q qs]]; cbn [queryAll]; split;
    try reflexivity.
  - induction rows as [|r rows IH]; [reflexivity|].
    cbn [List.filter forallb]. f_equal. exact IH.
  - apply filter_ext. intro r. cbn [forallb]. rewrite andb_true_r. reflexivity.
  - apply filter_ext. intro r. cbn [existsb]. rewrite orb_false_r. reflexivity.
  - apply filter_ext. intro r. apply HAnd.
  - apply filter_ext. intro r. apply HOr.
Qed.

End Adapter.

Section Comparisons.
Context `{T : GoTypes} `{U : GoUnicode} `{L : !GoLib}.

(** X21.  On a [string] field [<>] is the negation of [=] and
    [notcontains] the negation of [contains], for every pair of values.
    On a [float64] field that fails: a filter value that does not parse
    as a number, or a record value that is not a [float64], matches under
    no operator at all, [<>] included. *)
Theorem negated_operators (recordVal filterVal : Value) (op : string) :
  evaluateCondition recordVal "<>" filterVal "string"
  = negb (evaluateCondition recordVal "=" filterVal "string") /\
  evaluateCondition recordVal "notcontains" filterVal "string"
  = negb (evaluateCondition recordVal "contains" filterVal "string") /\
  (strconv_ParseFloat (fmt_v filterVal) = None ->
   evaluateCondition recordVal op filterVal "float64" = false) /\
  (match recordVal with
   | VFloat64 _ => True
   | _ => evaluateCondition recordVal op filterVal "float64" = false
   end).
Proof.
  repeat apply conj; try reflexivity.
  - intro H. unfold evaluateCondition. cbn -[String.eqb fmt_v].
    rewrite H. destruct recordVal; reflexivity.
  - destruct recordVal; try exact I; reflexivity.
Qed.

Lemma prefix_refl (s : string) : String.prefix s s = true.
Proof.
  induction s as [|c s IH]; [reflexivity|].
  cbn [String.prefix]. destruct (ascii_dec c c); [exact IH | contradiction].
Qed.

Lemma prefix_empty (s : string) : String.prefix "" s = true.
Proof. destruct s; reflexivity. Qed.

Lemma substring_full (s : string) : substring 0 (String.length s) s = s.
Proof.
  induction s as [|c s IH]; [reflexivity|].
  cbn [String.length substring]. rewrite IH. reflexivity.
Qed.

Lemma substring_none (s : string) (n : nat) : substring n 0 s = "".
Proof.
  revert n. induction s as [|c s IH]; intros [|n]; try reflexivity.
  cbn [substring]. apply IH.
Qed.

Lemma HasPrefix_Contains (s t : string) :
  strings.HasPrefix s t = true -> strings.Contains s t = true.
Proof. intro H. destruct s; cbn [strings.Contains]; rewrite H; reflexivity. Qed.

Lemma HasSuffix_Contains (s t : string) :
  strings.HasSuffix s t = true -> strings.Contains s t = true.
Proof.
  unfold strings.HasSuffix. cbv zeta.
  induction s as [|c s IH]; intro H; apply andb_true_iff in H as [Hle Heq];
    apply Nat.leb_le in Hle; apply String.eqb_eq in Heq.
  - destruct t; [reflexivity | cbn in Hle; lia].
  - cbn [String.length] in Hle, Heq.
    destruct (decide (String.length t = S (String.length s))) as [Hk|Hk].
    + rewrite Hk, Nat.sub_diag in Heq.
      change (S (String.length s)) with (String.length (String c s)) in Heq.
      rewrite substring_full in Heq. subst t.
      apply HasPrefix_Contains. apply prefix_refl.
    + replace (S (String.length s) - String.length t)%nat
        with (S (String.length s - String.length t)) in Heq by lia.
      cbn [substring] in Heq.
      cbn [strings.Contains]. rewrite IH; [apply orb_true_r|].
      apply andb_true_iff. split; [apply Nat.leb_le; lia|].
      apply String.eqb_eq. exact Heq.
Qed.

Lemma string_ops (recordVal filterVal : Value) :
  let a := fmt_v recordVal in
  let b := fmt_v filterVal in
  let holds := fun o => evaluateCondition recordVal o filterVal "string" in
  holds "=" = strings.EqualFold a b /\
  holds "contains"
  = strings.Contains (strings.ToLower a) (strings.ToLower b) /\
  holds "startswith"
  = strings.HasPrefix (strings.ToLower a) (strings.ToLower b) /\
  holds "endswith"
  = strings.HasSuffix (strings.ToLower a) (strings.ToLower b).
Proof. repeat split. Qed.

(** X22.  How the string operators of the in-memory evaluator relate on a
    [string] field.  On ASCII values a record that matches [=] also matches
    [startswith] and [endswith]; on any values, one that matches
    [startswith] or [endswith] also matches [contains]; and a filter value
    that renders as the empty string matches every record value under
    [contains], [startswith] and [endswith]. *)
Theorem string_operator_relations (recordVal filterVal : Value) :
  let holds := fun o => evaluateCondition recordVal o filterVal "string" in
  (strings.isASCII (fmt_v recordVal) = true ->
   strings.isASCII (fmt_v filterVal) = true ->
   holds "=" = true -> holds "startswith" = true /\ holds "endswith" = true) /\
  (holds "startswith" = true -> holds "contains" = true) /\
  (holds "endswith" = true -> holds "contains" = true) /\
  (fmt_v filterVal = "" ->
   holds "contains" = true /\ holds "startswith" = true /\
   holds "endswith" = true).
Proof.
  intro holds. subst holds.
  pose proof (string_ops recordVal filterVal) as (-> & -> & -> & ->).
  repeat apply conj.
  - intros Hr Hf H. rewrite (EqualFold_ToLower _ _ Hr Hf) in H.
    apply String.eqb_eq in H.
    rewrite H. split; [apply prefix_refl|].
    unfold strings.HasSuffix. cbv zeta.
    rewrite Nat.leb_refl, Nat.sub_diag, substring_full, String.eqb_refl.
    reflexivity.
  - apply HasPrefix_Contains.
  - apply HasSuffix_Contains.
  - intros ->. change (strings.ToLower "") with "". repeat split.
    + apply HasPrefix_Contains. apply prefix_empty.
    + apply prefix_empty.
    + unfold strings.HasSuffix. cbn [String.length].
      rewrite substring_none. reflexivity.
Qed.

(** X25.  On a field declared [string] and ASCII values, each operator of
    the in-memory evaluator gives the same answer when the letter case of
    the record value or of the filter value changes: the answer depends on
    the two renderings only through their lower-cased forms. *)
Theorem string_operators_fold_ascii_case (rv rv' fv fv' : Value)
    (op : string) :
  strings.isASCII (fmt_v rv) = true -> strings.isASCII (fmt_v rv') = true ->
  strings.isASCII (fmt_v fv) = true -> strings.isASCII (fmt_v fv') = true ->
  strings.ToLower (fmt_v rv) = strings.ToLower (fmt_v rv') ->
  strings.ToLower (fmt_v fv) = strings.ToLower (fmt_v fv') ->
  evaluateCondition rv op fv "string" = evaluateCondition rv' op fv' "string".
Proof.
  intros Ar Ar' Af Af' Hr Hf. unfold evaluateCondition.
  change ("string" =? "string") with true. cbv beta iota zeta.
  rewrite (EqualFold_ToLower _ _ Ar Af), (EqualFold_ToLower _ _ Ar' Af').
  rewrite Hr, Hf. reflexivity.
Qed.

End Comparisons.

Section Failures.
Context `{T : GoTypes} `{U : GoUnicode} `{L : !GoLib}.

Lemma ending_bind {A B : Type} (o o' : Outcome A) (k k' : A -> Outcome B) :
  ending o = ending o' ->
  (forall x y, ending (k x) = ending (k' y)) ->
  ending (bind o k) = ending (bind o' k').
Proof.
  intros Ho Hk. destruct o, o'; cbn in Ho |- *; try congruence. apply Hk.
Qed.

Lemma groupLoop_ending (r r' : Record_) (schema : TableSchema)
    (rest : list Value) :
  Forall (fun v => forall l, v = VArr l ->
            ending (applyFilterRecursive r schema l)
            = ending (applyFilterRecursive r' schema l)) rest ->
  forall cur cur',
    ending (groupLoop r schema rest cur) = ending (groupLoop r' schema rest cur').
Proof.
  induction rest as [|x|x y rest IH] using list_pair_ind;
    intros Hall cur cur'; try reflexivity.
  apply Forall_cons in Hall as [_ Hall]. apply Forall_cons in Hall as [Hy Hall].
  cbn -[applyFilterRecursive String.eqb].
  destruct x; try reflexivity. destruct y; try reflexivity.
  apply ending_bind; [apply Hy; reflexivity|].
  intros m m'.
  destruct (strings.ToLower s =? "and"); [apply IH; exact Hall|].
  destruct (strings.ToLower s =? "or"); [apply IH; exact Hall|reflexivity].
Qed.

(** How the evaluation of a filter ends does not depend on the record. *)
Lemma applyFilterRecursive_ending (r r' : Record_) (schema : TableSchema)
    (v : Value) :
  forall l, v = VArr l ->
    ending (applyFilterRecursive r schema l)
    = ending (applyFilterRecursive r' schema l).
Proof.
  induction v as [v Hv|l0 IH] using Value_nested_ind; intros l Hl.
  - subst v. destruct Hv.
  - injection Hl as <-. rewrite !applyFilterRecursive_eq.
    destruct l0 as [|first rest]; [reflexivity|].
    apply Forall_cons in IH as [Hfirst Hrest].
    destruct first; try reflexivity.
    + destruct (s =? "!").
      * destruct rest as [|operand [|? ?]]; try reflexivity.
        destruct operand; try reflexivity.
        apply Forall_cons in Hrest as [Hop _].
        apply ending_bind; [apply Hop; reflexivity | reflexivity].
      * destruct rest as [|opv [|value [|? ?]]]; try reflexivity.
        unfold evalLeaf.
        destruct (FieldMap schema !! strings.ToLower s); [|reflexivity].
        destruct (r !! s), (r' !! s); reflexivity.
    + apply ending_bind; [apply Hfirst; reflexivity|].
      intros m m'. apply groupLoop_ending. exact Hrest.
Qed.

(** X23.  Whether and how the in-memory evaluation of a filter fails is
    decided by the filter and the schema alone: on any two records it ends
    the same way, with a result, the same error, or a panic.  So a filter
    that fails on one record fails [FilterDynamicData] on every non-empty
    record set, with that error, wrapped, and no partial result; while on
    the empty record set, where nothing is evaluated, every array filter
    succeeds. *)
Theorem failure_is_record_independent (r r' : Record_) (schema : TableSchema)
    (filterGroup : list Value) :
  ending (applyFilterRecursive r schema filterGroup)
  = ending (applyFilterRecursive r' schema filterGroup) /\
  (forall (data : list Record_) (e : Error),
     applyFilterRecursive r schema filterGroup = Err e ->
     FilterDynamicData (r' :: data) schema (VArr filterGroup)
     = Err (EvalRecord e)) /\
  FilterDynamicData [] schema (VArr filterGroup) = Ok [].
Proof.
  assert (H : ending (applyFilterRecursive r schema filterGroup)
              = ending (applyFilterRecursive r' schema filterGroup))
    by (eapply applyFilterRecursive_ending; reflexivity).
  split; [exact H|].
  split; [|destruct filterGroup; reflexivity].
  intros data e He. rewrite He in H.
  destruct filterGroup as [|x fa]; [discriminate He|].
  cbn -[applyFilterRecursive].
  destruct (applyFilterRecursive r' schema (x :: fa)); try discriminate H.
  injection H as <-. reflexivity.
Qed.

(** X24.  De Morgan in memory: [["!", [A, "and", B]]] evaluates as
    [[["!", A], "or", ["!", B]]] does, and [["!", [A, "or", B]]] as
    [[["!", A], "and", ["!", B]]], with the same failure when an operand
    fails. *)
Theorem de_Morgan_in_memory (record : Record_) (schema : TableSchema)
    (A B : list Value) :
  applyFilterRecursive record schema
    [VStr "!"; VArr [VArr A; VStr "and"; VArr B]]
  = applyFilterRecursive record schema
      [VArr [VStr "!"; VArr A]; VStr "or"; VArr [VStr "!"; VArr B]] /\
  applyFilterRecursive record schema
    [VStr "!"; VArr [VArr A; VStr "or"; VArr B]]
  = applyFilterRecursive record schema
      [VArr [VStr "!"; VArr A]; VStr "and"; VArr [VStr "!"; VArr B]].
Proof.
  split.
  all: rewrite (applyFilterRecursive_eq record schema (VStr "!" :: _));
    cbn -[applyFilterRecursive];
    rewrite !chain_of_two;
    rewrite !(applyFilterRecursive_eq record schema [VStr "!"; VArr _]);
    cbn -[applyFilterRecursive];
    destruct (applyFilterRecursive record schema A) as [ra| |];
    cbn -[applyFilterRecursive]; try reflexivity;
    destruct (applyFilterRecursive record schema B) as [rb| |];
    cbn; try reflexivity; destruct ra, rb; reflexivity.
Qed.

End Failures.

(** * The facts at the sample data *)

Import DecimalLib.

(** The end-to-end scenario: of the two sample rows only the first passes
    [(name contains "Trans 0" or name contains "Trans 1") and amount = 100],
    in memory and under the built predicate alike. *)
Lemma end_to_end_scenario :
  FilterDynamicData Sample.rows Sample.schema (VArr Sample.endToEnd)
  = Ok [Sample.row 100 "Trans 1"] /\
  bind (ParseFilterToPredicates (Some (genericAdapter Sample.adapter))
          (VArr Sample.endToEnd))
    (fun p => Ok (queryAll (rowAccepts Sample.schema) p Sample.rows))
  = Ok [Sample.row 100 "Trans 1"].
Proof. split; vm_compute; reflexivity. Qed.


(** What the two backends return there. *)
Lemma backends_on_the_plain_sample :
  FilterDynamicData Sample.rows Sample.schema Sample.plain = Ok Sample.rows /\
  ParseFilterToPredicates (Some (genericAdapter Sample.adapter)) Sample.plain
  = Ok (Some (sql_Or
                [sql_And [sql_Not (sql_Not (sql_ContainsFold "name" "Trans 1"));
                          sql_GTE "amount" (VFloat64 (inject_Z 100))];
                 sql_EQ "name" (VStr "trans 0")])).
Proof. split; vm_compute; reflexivity. Qed.


(** Outside the plain expressions the backends part in more ways.  A field
    name in another letter case than the record key: in memory the record
    is looked up under the name as written and [["Amount","=",100]] matches
    no row, while the predicate is built on the column [amount].  And a
    [notcontains] leaf on a record without the field: no match in memory,
    while [Not(ContainsFold)] holds of that row under the reference
    reading.  And an operand of another type than the field's: 2.5 on the
    [int] field [qty] matches the record with [qty] 2 in memory, while the
    adapter rejects it. *)
Lemma backends_differ_outside_plain :
  FilterDynamicData Sample.rows Sample.schema
    (leaf "Amount" "=" (VFloat64 (inject_Z 100))) = Ok [] /\
  bind (ParseFilterToPredicates (Some (genericAdapter Sample.adapter))
          (leaf "Amount" "=" (VFloat64 (inject_Z 100))))
    (fun p => Ok (queryAll (rowAccepts Sample.schema) p Sample.rows))
  = Ok [Sample.row 100 "Trans 1"] /\
  applyFilterRecursive (<["amount" := VFloat64 (inject_Z 100)]> ∅)
    Sample.schema [VStr "name"; VStr "notcontains"; VStr "x"] = Ok false /\
  bind (ParseFilterToPredicates (Some (genericAdapter Sample.adapter))
          (leaf "name" "notcontains" (VStr "x")))
    (fun p => Ok (queryAll (rowAccepts Sample.schema) p
                    [<["amount" := VFloat64 (inject_Z 100)]> ∅]))
  = Ok [<["amount" := VFloat64 (inject_Z 100)]> ∅] /\
  FilterDynamicData [<["qty" := VFloat64 (inject_Z 2)]> ∅] Sample.schema
    (leaf "qty" "=" (VFloat64 Sample.twoAndAHalf))
  = Ok [<["qty" := VFloat64 (inject_Z 2)]> ∅] /\
  ParseFilterToPredicates (Some (genericAdapter Sample.adapter))
    (leaf "qty" "=" (VFloat64 Sample.twoAndAHalf))
  = Err (InvalidValue "int" "qty" (FloatHasFraction Sample.twoAndAHalf)).
Proof. repeat split; vm_compute; reflexivity. Qed.

(** C10 fails for [GetNotPredicate]: a non-nil predicate comes back
    negated, not as itself. *)
Lemma GetNotPredicate_wraps :
  GetNotPredicate (genericAdapter Sample.adapter) (Some Sample.amountIs100)
  = Some (sql_Not Sample.amountIs100) /\
  Some (sql_Not Sample.amountIs100) <> Some Sample.amountIs100.
Proof. split; [vm_compute; reflexivity | discriminate]. Qed.

(** C10 at a negated [null]: it parses to no predicate. *)
Lemma nil_predicates_are_dropped_witness :
  ParseFilterToPredicates (Some (genericAdapter Sample.adapter)) VNil = Ok None /\
  ParseFilterToPredicates (Some (genericAdapter Sample.adapter))
    (VArr [VStr "!"; VNil]) = Ok None.
Proof.
  split; [reflexivity|].
  apply (proj1 (proj2 (nil_predicates_are_dropped
                         (genericAdapter Sample.adapter))) VNil).
  reflexivity.
Defined.

(** C3 at [[["amount","=",100], "and"]]: the builder returns the predicate
    of the only operand. *)
Lemma dangling_operator_witness :
  (strings.ToLower "and" = "and" \/ strings.ToLower "and" = "or") /\
  ParseFilterToPredicates (Some (genericAdapter Sample.adapter)) Sample.dangling
  = Ok (Some Sample.amountIs100).
Proof.
  split; [left; reflexivity|].
  apply (dangling_operator_is_accepted (genericAdapter Sample.adapter)
           (leaf "amount" "=" (VInt 100)) "and" Sample.amountIs100).
  - left. reflexivity.
  - vm_compute. reflexivity.
Defined.

(** C4 at [["amount","between",[100,200]]] and a row with amount 150: no
    match in memory, while the adapter builds the inclusive range, which
    the reference reading accepts on that row. *)
Lemma between_on_sample_row :
  applyFilterRecursive (Sample.row 150 "Trans 2") Sample.schema
    [VStr "amount"; VStr "between"; VArr [VFloat64 (inject_Z 100); VFloat64 (inject_Z 200)]]
  = Ok false /\
  ParseFilterToPredicates (Some (genericAdapter Sample.adapter))
    (leaf "amount" "between" (VArr [VFloat64 (inject_Z 100); VFloat64 (inject_Z 200)]))
  = Ok (Some (sql_And [sql_GTE "amount" (VFloat64 (inject_Z 100));
                       sql_LTE "amount" (VFloat64 (inject_Z 200))])) /\
  rowAccepts Sample.schema
    (sql_And [sql_GTE "amount" (VFloat64 (inject_Z 100)); sql_LTE "amount" (VFloat64 (inject_Z 200))])
    (Sample.row 150 "Trans 2") = true.
Proof. repeat split; vm_compute; reflexivity. Qed.

(** C5 at a schema that declares [name] as [text]: in memory
    [{"name":"Foo"}] does not match [["name","=","foo"]], while for that
    leaf the adapter builds the plain [EQ] on ["foo"], as it would for a
    [string] field. *)
Lemma text_field_is_missing_witness :
  let schema := mkTableSchema "note" [ {| Name := "name"; Type_ := "text" |} ] in
  applyFilterRecursive (<["name" := VStr "Foo"]> ∅) schema
    [VStr "name"; VStr "="; VStr "foo"] = Ok false /\
  Generic_GetPredicateForField {| entityName := "note"; tableSchema := schema |}
    "name" "=" (VStr "foo")
  = Ok (Some (sql_EQ "name" (VStr "foo"))).
Proof.
  intro schema. split.
  - apply (proj1 (proj2 (text_field_is_missing_in_memory VNil VNil "="))
             schema {| Name := "name"; Type_ := "text" |} "foo").
    + vm_compute. reflexivity.
    + reflexivity.
  - apply (proj2 (proj2 (proj2 (text_field_is_missing_in_memory
                                  VNil VNil "=")))
             {| entityName := "note"; tableSchema := schema |}
             "name" "foo" {| Name := "name"; Type_ := "text" |}).
    + vm_compute. reflexivity.
    + reflexivity.
Defined.

(** C5 on the sample schema: in memory [{"notes":"Foo"}] does not match
    [["notes","=","foo"]], nor [["notes","=","Foo"]], [notes] being
    declared [text]; [{"name":"Foo"}] matches [["name","=","foo"]], [name]
    being declared [string]. *)
Lemma text_field_never_matches_in_memory :
  applyFilterRecursive (<["notes" := VStr "Foo"]> ∅) Sample.schema
    [VStr "notes"; VStr "="; VStr "foo"] = Ok false /\
  applyFilterRecursive (<["notes" := VStr "Foo"]> ∅) Sample.schema
    [VStr "notes"; VStr "="; VStr "Foo"] = Ok false /\
  applyFilterRecursive (<["name" := VStr "Foo"]> ∅) Sample.schema
    [VStr "name"; VStr "="; VStr "foo"] = Ok true.
Proof. repeat split; vm_compute; reflexivity. Qed.

(** C6 at [["name", ">", "a"]] on the [string] field [name]. *)
Lemma unsupported_operator_witness :
  Generic_GetPredicateForField Sample.adapter "name" ">" (VStr "a")
  = Err (UnsupportedOperator ">" "string" "name") /\
  evalLeaf (Sample.row 100 "Foo") Sample.schema "name" (VStr ">") (VStr "a")
  = Ok false.
Proof.
  apply (unsupported_operator Sample.adapter (Sample.row 100 "Foo")
           "name" ">" (VStr "a") {| Name := "name"; Type_ := "string" |}).
  - vm_compute. reflexivity.
  - discriminate.
  - vm_compute. reflexivity.
  - exists "a". reflexivity.
Defined.

(** C6 fails in memory: [["name", ">", "a"]] on a [string] field is a
    non-match and no error. *)
Lemma unsupported_operator_is_false_in_memory :
  applyFilterRecursive (Sample.row 100 "Foo") Sample.schema
    [VStr "name"; VStr ">"; VStr "a"] = Ok false /\
  FilterDynamicData Sample.rows Sample.schema (leaf "name" ">" (VStr "a"))
  = Ok [].
Proof. split; vm_compute; reflexivity. Qed.

(** C7 at the three leaves of the end-to-end expression. *)
Lemma chain_is_left_associative_witness :
  ParseFilterToPredicates (Some (genericAdapter Sample.adapter))
    (VArr [ leaf "name" "contains" (VStr "Trans 0"); VStr "or";
            leaf "name" "contains" (VStr "Trans 1"); VStr "and";
            leaf "amount" "=" (VInt 100) ])
  = Ok (Some (sql_And [sql_Or [sql_ContainsFold "name" "Trans 0";
                               sql_ContainsFold "name" "Trans 1"];
                       Sample.amountIs100])).
Proof.
  apply (proj2 (proj2 (chain_is_left_associative ∅ Sample.schema
                         (genericAdapter Sample.adapter)
                         [VStr "name"; VStr "contains"; VStr "Trans 0"]
                         [VStr "name"; VStr "contains"; VStr "Trans 1"]
                         [VStr "amount"; VStr "="; VInt 100]))
           (sql_ContainsFold "name" "Trans 0")
           (sql_ContainsFold "name" "Trans 1")
           Sample.amountIs100);
    vm_compute; reflexivity.
Defined.

(** C9 at a row without [date]. *)
Lemma missing_field_witness :
  applyFilterRecursive (Sample.row 100 "Trans 1") Sample.schema
    [VStr "date"; VStr ">"; VStr "2024-01-01"] = Ok false.
Proof.
  apply (missing_field_is_non_match (Sample.row 100 "Trans 1") Sample.schema
           "date" (VStr ">") (VStr "2024-01-01")
           {| Name := "date"; Type_ := "time.Time" |}).
  - discriminate.
  - vm_compute. reflexivity.
  - vm_compute. reflexivity.
Defined.

(** * The further facts at the sample data *)

(** X1 at the sample data. *)
Lemma buildFieldMap_witness :
  exists f', buildFieldMap (Fields Sample.schema) !! "name" = Some f' /\
             strings.ToLower (Name f') = "name".
Proof.
  apply (proj2 (buildFieldMap_sound_complete (Fields Sample.schema))
           {| Name := "name"; Type_ := "string" |}).
  right. left. reflexivity.
Defined.

(** X2 at the sample data. *)
Lemma buildFieldMap_last_wins_witness :
  buildFieldMap ([ {| Name := "amount"; Type_ := "float64" |} ]
                 ++ {| Name := "Amount"; Type_ := "int" |}
                 :: [ {| Name := "name"; Type_ := "string" |} ])
    !! "amount"
  = Some {| Name := "Amount"; Type_ := "int" |}.
Proof.
  apply (buildFieldMap_last_wins
           [ {| Name := "amount"; Type_ := "float64" |} ]
           [ {| Name := "name"; Type_ := "string" |} ]
           {| Name := "Amount"; Type_ := "int" |}).
  repeat constructor. vm_compute. discriminate.
Defined.

(** X3 at the sample data. *)
Lemma registry_round_trip_witness :
  GetAdapter (RegisterAdapter ∅ "Transaction"
                (Some (genericAdapter Sample.adapter))) "TRANSACTION"
  = inl (Some (genericAdapter Sample.adapter)).
Proof.
  apply (proj1 (registry_round_trip ∅ "Transaction" "TRANSACTION"
                  (Some (genericAdapter Sample.adapter)))).
  reflexivity.
Defined.

(** X4 at the sample data. *)
Lemma FilterDynamicData_is_filter_witness :
  [Sample.row 100 "Trans 1"]
  = List.filter (matchesRecord Sample.schema Sample.endToEnd) Sample.rows /\
  sublist [Sample.row 100 "Trans 1"] Sample.rows.
Proof.
  apply (FilterDynamicData_is_filter Sample.rows Sample.schema Sample.endToEnd).
  vm_compute. reflexivity.
Defined.

(** X5 at the sample data. *)
Lemma FilterDynamicData_idempotent_witness :
  FilterDynamicData [Sample.row 100 "Trans 1"] Sample.schema
    (VArr Sample.endToEnd)
  = Ok [Sample.row 100 "Trans 1"].
Proof.
  apply (FilterDynamicData_idempotent Sample.rows).
  vm_compute. reflexivity.
Defined.

(** X7 at the sample data. *)
Lemma double_negation_witness :
  ParseFilterToPredicates (Some (genericAdapter Sample.adapter))
    (VArr [VStr "!"; VArr [VStr "!"; leaf "amount" "=" (VInt 100)]])
  = Ok (Some (sql_Not (sql_Not Sample.amountIs100))).
Proof.
  apply (proj2 (double_negation ∅ Sample.schema
                  (genericAdapter Sample.adapter)
                  [VStr "amount"; VStr "="; VInt 100])
           Sample.adapter Sample.amountIs100).
  vm_compute. reflexivity.
Defined.

(** X10 at the sample data. *)
Lemma builder_checks_operator_first_witness :
  ParseFilterToPredicates (Some (genericAdapter Sample.adapter))
    (VArr [leaf "amount" "=" (VInt 100); VStr "xor"; VInt 7])
  = Err (InvalidLogicalOperator "xor").
Proof.
  refine (proj1 (builder_checks_operator_first (genericAdapter Sample.adapter)
                   (leaf "amount" "=" (VInt 100)) (Some Sample.amountIs100)
                   "xor" VNil [VInt 7] _ _ _)).
  - vm_compute. reflexivity.
  - discriminate.
  - discriminate.
Defined.

(** X11 at the sample data. *)
Lemma reserved_token_witness :
  ParseFilterToPredicates (Some (genericAdapter Sample.adapter))
    (VArr [VStr "AND"; VStr "="; VBool true])
  = Err (GroupSubCondition (NotArray (VStr "AND")) (VStr "AND")).
Proof.
  apply (reserved_token_is_not_a_field (genericAdapter Sample.adapter)
           ∅ Sample.schema "AND" (VStr "=") (VBool true)).
  left. reflexivity.
Defined.

(** X12 at the sample data. *)
Lemma nil_operand_breaks_chain_witness :
  ParseFilterToPredicates (Some (genericAdapter Sample.adapter))
    (VArr [ VArr []; VStr "and"; leaf "amount" "=" (VInt 100); VStr "or";
            leaf "name" "contains" (VStr "Trans 1") ])
  = Err (Mismatched 2 2).
Proof.
  apply (nil_operand_breaks_chain (genericAdapter Sample.adapter)
           (VArr []) (leaf "amount" "=" (VInt 100))
           (leaf "name" "contains" (VStr "Trans 1")) "and" "or"
           Sample.amountIs100 (sql_ContainsFold "name" "Trans 1")).
  - reflexivity.
  - vm_compute. reflexivity.
  - vm_compute. reflexivity.
  - left. reflexivity.
  - right. reflexivity.
Defined.

(** X13 at the sample data. *)
Lemma negation_arity_witness :
  applyFilterRecursive (Sample.row 100 "Trans 1") Sample.schema [VStr "!"]
  = Err (EvalMalformedNot 1) /\
  ParseFilterToPredicates (Some (genericAdapter Sample.adapter))
    (VArr [VStr "!"])
  = Err (MalformedNot 1 [VStr "!"]).
Proof.
  apply (proj1 (negation_arity (Sample.row 100 "Trans 1") Sample.schema
                  (genericAdapter Sample.adapter) [] VNil)).
  discriminate.
Defined.

(** X14 at the sample data. *)
Lemma builder_never_panics_witness :
  ParseFilterToPredicates (Some (genericAdapter Sample.adapter))
    (VArr [VInt 5; VStr "and"; leaf "amount" "=" (VInt 100)])
  <> Panic.
Proof.
  apply (builder_never_panics (genericAdapter Sample.adapter)).
  exact (generic_leaf_never_panics Sample.adapter).
Defined.

(** X15 at the sample data. *)
Lemma names_and_operators_fold_case_witness :
  okPart (Generic_GetPredicateForField Sample.adapter "AMOUNT" "Between"
            (VArr [VInt 1; VInt 2]))
  = okPart (Generic_GetPredicateForField Sample.adapter "amount" "between"
              (VArr [VInt 1; VInt 2])) /\
  evaluateCondition (T:=types) (VFloat64 (inject_Z 1)) "Between" (VArr [VInt 1; VInt 2])
    "float64"
  = evaluateCondition (VFloat64 (inject_Z 1)) "between" (VArr [VInt 1; VInt 2]) "float64".
Proof.
  apply (names_and_operators_fold_case Sample.adapter "AMOUNT" "amount"
           "Between" "between"); reflexivity.
Defined.

(** X16 at the sample data. *)
Lemma adapter_names_lower_cased_column_witness :
  Forall (fun c => c = "amount")
    (columns (T:=types) (sql_And [sql_GTE "amount" (VFloat64 (inject_Z 1));
                                  sql_LTE "amount" (VFloat64 (inject_Z 2))])).
Proof.
  apply (adapter_names_lower_cased_column Sample.adapter "AMOUNT" "between"
           (VArr [VInt 1; VInt 2])).
  vm_compute. reflexivity.
Defined.

(** X17 at the sample data. *)
Lemma between_in_adapter_witness :
  Generic_GetPredicateForField Sample.adapter "qty" "BETWEEN"
    (VArr [VStr "20"; VInt 10])
  = Ok (Some (sql_And [sql_GTE "qty" (VInt 20); sql_LTE "qty" (VInt 10)])).
Proof.
  apply (proj1 (proj2 (between_in_adapter Sample.adapter "qty" "BETWEEN"
                         {| Name := "qty"; Type_ := "int" |}
                         (VStr "20") (VInt 10) VNil
                         ltac:(vm_compute; reflexivity)
                         ltac:(reflexivity))));
    reflexivity.
Defined.

(** X18 at the sample data: the operand 2.5 on the [int] field [qty].  The
    adapter rejects it; in memory it is truncated, so the record values 2.5
    and 2 compare alike against it. *)
Lemma fractional_operand_witness :
  hasFraction Sample.twoAndAHalf = true /\
  Generic_GetPredicateForField Sample.adapter "qty" "="
    (VFloat64 Sample.twoAndAHalf)
  = Err (InvalidValue "int" "qty" (FloatHasFraction Sample.twoAndAHalf)) /\
  evaluateCondition (VFloat64 Sample.twoAndAHalf) "="
    (VFloat64 Sample.twoAndAHalf) "int"
  = evaluateCondition (VFloat64 (inject_Z 2)) "="
      (VFloat64 Sample.twoAndAHalf) "int".
Proof.
  split; [vm_compute; reflexivity|].
  change (Err (InvalidValue "int" "qty" (FloatHasFraction Sample.twoAndAHalf)))
    with (if hasFraction Sample.twoAndAHalf then
            Err (InvalidValue "int" "qty" (FloatHasFraction Sample.twoAndAHalf))
          else
            Generic_GetPredicateForField Sample.adapter "qty" "="
              (VInt (int_of_float64 Sample.twoAndAHalf))).
  apply (fractional_operand_on_int_field Sample.adapter "qty" "="
           {| Name := "qty"; Type_ := "int" |} Sample.twoAndAHalf
           Sample.twoAndAHalf (inject_Z 2) (VFloat64 Sample.twoAndAHalf)).
  - vm_compute. reflexivity.
  - reflexivity.
  - discriminate.
  - vm_compute. reflexivity.
Defined.

(** X20 at the sample data. *)
Lemma combinators_witness :
  queryAll (rowAccepts Sample.schema)
    (Generic_GetAndPredicate [None; Some Sample.amountIs100; None])
    Sample.rows
  = List.filter
      (fun r => forallb (fun p => rowAccepts Sample.schema p r)
                  (validPreds [None; Some Sample.amountIs100; None]))
      Sample.rows.
Proof.
  apply (combinators_under_a_Boolean_engine (rowAccepts Sample.schema)).
  apply rowAccepts_Boolean.
Defined.

(** X21 at the sample data. *)
Lemma negated_operators_witness :
  evaluateCondition (VFloat64 (T:=types) (inject_Z 100)) "<>" (VStr "abc") "float64"
  = false.
Proof.
  apply (proj1 (proj2 (proj2 (negated_operators
                                (VFloat64 (T:=types) (inject_Z 100))
                                (VStr "abc") "<>")))).
  reflexivity.
Defined.

(** X22 at the sample data. *)
Lemma string_operator_relations_witness :
  evaluateCondition (VStr "Foo") "startswith" (VStr "foo") "string" = true /\
  evaluateCondition (VStr "Foo") "endswith" (VStr "foo") "string" = true.
Proof.
  apply (proj1 (string_operator_relations (VStr "Foo") (VStr "foo")));
    reflexivity.
Defined.

(** X25 at the sample data. *)
Lemma string_operators_fold_ascii_case_witness :
  evaluateCondition (VStr "Foo") "=" (VStr "foo") "string"
  = evaluateCondition (VStr "foo") "=" (VStr "FOO") "string".
Proof.
  apply (string_operators_fold_ascii_case
           (VStr "Foo") (VStr "foo") (VStr "foo") (VStr "FOO") "=");
    reflexivity.
Defined.

(** X23 at the sample data. *)
Lemma failure_is_record_independent_witness :
  FilterDynamicData Sample.rows Sample.schema
    (VArr [VStr "nope"; VStr "="; VInt 1])
  = Err (EvalRecord (EvalFieldNotFound "nope")).
Proof.
  apply (proj1 (proj2 (failure_is_record_independent ∅
                         (Sample.row 100 "Trans 1") Sample.schema
                         [VStr "nope"; VStr "="; VInt 1]))).
  vm_compute. reflexivity.
Defined.
